(** * tinygrad/runtime/ops_disk.py: the disk device, its buffers and allocator

    A shallow embedding of [DiskDevice], [DiskBuffer] and [DiskAllocator].
    Python integers are [Z]; an attribute that may be missing from an object
    ([hasattr]) is an [option]; a method that mutates [self] or calls the
    operating system is a computation in a state-and-exception monad whose
    state survives a raised exception, as Python's does. *)

From Stdlib Require Import ZArith List String Bool Lia.
From Stdlib Require Import Strings.Byte Strings.Ascii.
From Stdlib Require Import DecimalString DecimalZ DecimalPos.
Import ListNotations.
Local Open Scope Z_scope.

(** ** Exceptions *)

(** The two [assert] messages of the file. *)
Inductive assert_msg : Type :=
| cant_reopen (opened : option Z) (tried : Z)
    (* f"can't reopen Disk tensor with larger size, opened with .., tried to open with .." *)
| wasnt_opened.
    (* "DiskBuffer wasn't opened" *)

Inductive exn : Type :=
| AssertionError (msg : assert_msg)
| AttributeError (attr : string)
| TypeError
| ValueError
| OverflowError
| OSError
| FileExistsError
| FileNotFoundError.

(** [except OSError] also catches the subclasses of [OSError]. *)
Definition is_OSError (e : exn) : bool :=
  match e with
  | OSError | FileExistsError | FileNotFoundError => true
  | _ => false
  end.

(** The names the specification gives to the failures. *)
Definition CapacityExceeded (opened tried : Z) : exn :=
  AssertionError (cant_reopen (Some opened) tried).
Definition LengthMismatch : exn := ValueError.

(** ** The monad *)

Inductive result (A : Type) : Type :=
| Ok (a : A)
| Raise (e : exn).
Arguments Ok {A} a.
Arguments Raise {A} e.

Definition M (S A : Type) : Type := S -> S * result A.

Definition ret {S A} (a : A) : M S A := fun s => (s, Ok a).

Definition bind {S A B} (m : M S A) (k : A -> M S B) : M S B :=
  fun s =>
    match m s with
    | (s', Ok a) => k a s'
    | (s', Raise e) => (s', Raise e)
    end.

Definition raise {S A} (e : exn) : M S A := fun s => (s, Raise e).
Definition get {S} : M S S := fun s => (s, Ok s).
Definition put {S} (s : S) : M S unit := fun _ => (s, Ok tt).
Definition modify {S} (f : S -> S) : M S unit := fun s => (f s, Ok tt).

(** [try: body / except OSError: handler]. *)
Definition try_except_OSError {S A} (body handler : M S A) : M S A :=
  fun s =>
    match body s with
    | (s', Raise e) => if is_OSError e then handler s' else (s', Raise e)
    | r => r
    end.

(** [assert cond, msg]. *)
Definition assert_ {S} (cond : bool) (msg : assert_msg) : M S unit :=
  if cond then ret tt else raise (AssertionError msg).

Declare Scope py_scope.
Delimit Scope py_scope with py.
Notation "x <- c1 ;; c2" := (bind c1 (fun x => c2))
  (at level 61, c1 at next level, right associativity) : py_scope.
Notation "c1 ;; c2" := (bind c1 (fun _ => c2))
  (at level 61, right associativity) : py_scope.
Local Open Scope py_scope.

(** ** Bytes and Python slicing *)

Definition bytes : Type := list byte.

Definition len {A} (l : list A) : Z := Z.of_nat (List.length l).

Definition zeros (n : Z) : bytes := repeat x00 (Z.to_nat n).

(** The bytes of [l] in the window [[lo, lo + n)]. *)
Definition window {A} (lo n : Z) (l : list A) : list A :=
  firstn (Z.to_nat n) (skipn (Z.to_nat lo) l).

(** [l] with the window starting at [lo] overwritten by [src]. *)
Definition overwrite {A} (lo : Z) (src l : list A) : list A :=
  firstn (Z.to_nat lo) l ++ src ++ skipn (Z.to_nat lo + List.length src) l.

(** How Python brings one bound of [x[start:stop]] into [[0, n]]. *)
Definition adjust_index (i n : Z) : Z :=
  if i <? 0 then Z.max (i + n) 0 else Z.min i n.

(** Start and length of [x[start:stop]] for a sequence of length [n]. *)
Definition slice_indices (start stop n : Z) : Z * Z :=
  let lo := adjust_index start n in
  let hi := adjust_index stop n in
  (lo, if lo <? hi then hi - lo else 0).

(** ** The platform *)

(** What the module reads from its platform when it is imported, and how the
    operating system answers the two calls that the file expects may fail. *)
Record Platform : Type := {
  OSX : bool;                    (* tinygrad.helpers.OSX *)
  O_DIRECT : option Z;           (* os.O_DIRECT, None when hasattr(os, 'O_DIRECT') is false *)
  MADV_HUGEPAGE : option Z;      (* getattr(mmap, "MADV_HUGEPAGE", None) *)
  open_ok : Z -> bool;           (* does os.open accept these flags on the backing path *)
  madvise_ok : bool              (* does the kernel accept the huge-page advice *)
}.

Definition O_RDWR : Z := 2.
Definition O_CREAT : Z := 64.

(** ** The operating system

    One device names one resource, so the state of the operating system is
    the state of that resource: the backing file of a [disk:<path>] device,
    the descriptors open on it, and whether the name of a [disk:shm:<name>]
    device is linked.  A shared writable mapping and the file are one store:
    what is written through the mapping is what a read of the file returns. *)
Module OS.

Record t : Type := {
  file : option bytes;
  fds : list Z;
  shm_linked : bool
}.

Definition with_file (o : t) (f : option bytes) : t :=
  {| file := f; fds := fds o; shm_linked := shm_linked o |}.
Definition with_fds (o : t) (l : list Z) : t :=
  {| file := file o; fds := l; shm_linked := shm_linked o |}.
Definition with_shm_linked (o : t) (b : bool) : t :=
  {| file := file o; fds := fds o; shm_linked := b |}.

Definition is_open (fd : Z) (o : t) : bool := existsb (Z.eqb fd) (fds o).

(** A descriptor that is not in use: above the standard streams and above
    every descriptor that is open. *)
Definition fresh_fd (o : t) : Z := Z.succ (fold_right Z.max 2 (fds o)).

Definition file_bytes (o : t) : bytes :=
  match file o with Some b => b | None => [] end.

Section WithPlatform.
Variable pf : Platform.

(** [os.open(filename, flags)] on the backing path. *)
Definition open (flags : Z) : M t Z :=
  o <- get ;;
  if negb (open_ok pf flags) then raise OSError
  else
    match file o, Z.testbit flags 6 with
    | None, false => raise FileNotFoundError
    | _, _ =>
        let fd := fresh_fd o in
        put (with_fds (with_file o (Some (file_bytes o))) (fd :: fds o)) ;;
        ret fd
    end.

(** [os.close(fd)]. *)
Definition close (fd : Z) : M t unit :=
  o <- get ;;
  if is_open fd o
  then put (with_fds o (filter (fun x => negb (Z.eqb fd x)) (fds o)))
  else raise OSError.

(** [os.fstat(fd).st_size]. *)
Definition fstat_st_size (fd : Z) : M t Z :=
  o <- get ;;
  if is_open fd o then ret (len (file_bytes o)) else raise OSError.

(** [os.ftruncate(fd, length)]: cut, or extend with zero bytes. *)
Definition ftruncate (fd n : Z) : M t unit :=
  o <- get ;;
  if negb (is_open fd o) then raise OSError
  else if n <? 0 then raise OSError
  else
    let b := file_bytes o in
    put (with_file o (Some (firstn (Z.to_nat n) b ++ zeros (n - len b)))).

End WithPlatform.
End OS.

(** ** Python objects the device refers to *)

(** A [multiprocessing.shared_memory.SharedMemory] handle.  [buf] is the
    memory behind its [.buf] view; [close()] releases the view. *)
Record SharedMemory : Type := {
  shm_name : string;
  shm_buf : option bytes
}.

(** What [DiskDevice.mem] can refer to: an [mmap.mmap] of the given length
    over the backing file, or the [.buf] view of the handle in
    [DiskDevice.shm] (the same object as that handle holds). *)
Inductive pyobj : Type :=
| PyNone
| Mmap (n : Z)
| ShmBuf.

Definition is_None (o : pyobj) : bool :=
  match o with PyNone => true | _ => false end.

(** A [memoryview] over [obj], starting [start] bytes into it. *)
Record memoryview : Type := {
  obj : pyobj;
  start : Z;
  nbytes : Z
}.

(** [s[n:]] on strings. *)
Definition str_from (n : nat) (s : string) : string :=
  substring n (String.length s - n) s.

(** [str(z)] for an int: its decimal digits, after a minus sign when it is
    negative. *)
Definition str_int (z : Z) : string := NilZero.string_of_int (Z.to_int z).

(** Whether the character occurs in the string. *)
Fixpoint has_char (c : ascii) (s : string) : bool :=
  match s with
  | EmptyString => false
  | String a s' => Ascii.eqb a c || has_char c s'
  end.

(** Reading an attribute that may not have been assigned yet. *)
Definition attr {S A} (name : string) (o : option A) : M S A :=
  match o with
  | Some a => ret a
  | None => raise (AttributeError name)
  end.

(** ** class DiskDevice *)
Module DiskDevice.

(** The attributes of a device.  [shm], [fd] and [mem] are first assigned in
    [_might_open]; until then the object does not have them. *)
Record t : Type := {
  dname : string;
  size : option Z;
  count : Z;
  shm : option SharedMemory;
  fd : option Z;
  mem : option pyobj
}.

Definition with_size (d : t) (v : option Z) : t :=
  {| dname := dname d; size := v; count := count d;
     shm := shm d; fd := fd d; mem := mem d |}.
Definition with_count (d : t) (v : Z) : t :=
  {| dname := dname d; size := size d; count := v;
     shm := shm d; fd := fd d; mem := mem d |}.
Definition with_shm (d : t) (v : option SharedMemory) : t :=
  {| dname := dname d; size := size d; count := count d;
     shm := v; fd := fd d; mem := mem d |}.
Definition with_fd (d : t) (v : option Z) : t :=
  {| dname := dname d; size := size d; count := count d;
     shm := shm d; fd := v; mem := mem d |}.
Definition with_mem (d : t) (v : option pyobj) : t :=
  {| dname := dname d; size := size d; count := count d;
     shm := shm d; fd := fd d; mem := v |}.

(** The device together with the resource it names. *)
Record World : Type := {
  self : t;
  os : OS.t
}.

Definition get_self : M World t := fun w => (w, Ok (self w)).
Definition set_self (f : t -> t) : M World unit :=
  modify (fun w => {| self := f (self w); os := os w |}).

(** Run a system call on the operating-system part of the world. *)
Definition lift_os {A} (m : M OS.t A) : M World A :=
  fun w =>
    let (o, r) := m (os w) in ({| self := self w; os := o |}, r).

(** Modelled from the spec: [Compiled.__init__] (tinygrad.device) is not part
    of this file; it keeps the device identifier string, of the form
    [disk:<path>] or [disk:shm:<name>], as [dname]. *)
Definition __init__ (device : string) : t :=
  {| dname := device; size := None; count := 0;
     shm := None; fd := None; mem := None |}.

(** [shared_memory.SharedMemory(name=name, create=True, size=size)]. *)
Definition SharedMemory_create (name : string) (n : Z) : M OS.t SharedMemory :=
  if n <? 0 then raise ValueError
  else if n =? 0 then raise ValueError
  else
    o <- get ;;
    if OS.shm_linked o then raise FileExistsError
    else
      put (OS.with_shm_linked o true) ;;
      ret {| shm_name := name; shm_buf := Some (zeros n) |}.

(** [shm.close()]: the view is released. *)
Definition SharedMemory_close (h : SharedMemory) : SharedMemory :=
  {| shm_name := shm_name h; shm_buf := None |}.

(** [shm.unlink()]. *)
Definition SharedMemory_unlink (h : SharedMemory) : M OS.t unit :=
  o <- get ;;
  if OS.shm_linked o then put (OS.with_shm_linked o false)
  else raise FileNotFoundError.

(** [mmap.mmap(fd, length, access=mmap.ACCESS_WRITE)]: a shared writable
    mapping; length 0 maps the whole file. *)
Definition mmap_mmap (fd n : Z) : M OS.t pyobj :=
  o <- get ;;
  if negb (OS.is_open fd o) then raise OSError
  else if n <? 0 then raise OverflowError
  else
    let st_size := len (OS.file_bytes o) in
    if n =? 0 then
      if st_size =? 0 then raise ValueError else ret (Mmap st_size)
    else if st_size <? n then raise ValueError
    else ret (Mmap n).

Section WithPlatform.
Variable pf : Platform.

(** [m.madvise(option)]: a method of [mmap.mmap] objects only. *)
Definition madvise (m : pyobj) (option : Z) : M World unit :=
  match m with
  | Mmap _ => if madvise_ok pf then ret tt else raise OSError
  | _ => raise (AttributeError "madvise")
  end.

Definition _might_open (size : Z) : M World unit :=
  set_self (fun d => with_count d (count d + 1)) ;;
  d <- get_self ;;
  assert_ (match DiskDevice.size d with
           | None => true
           | Some opened => size <=? opened
           end)
          (cant_reopen (DiskDevice.size d) size) ;;
  match DiskDevice.size d with
  | Some _ => ret tt
  | None =>
      let filename := str_from 5 (dname d) in
      set_self (fun d => with_size d (Some size)) ;;
      (if prefix "shm:" filename then
         h <- lift_os (SharedMemory_create (str_from 4 filename) size) ;;
         set_self (fun d => with_shm d (Some h)) ;;
         set_self (fun d => with_mem d (Some ShmBuf))
       else
         try_except_OSError
           (let flags := Z.lor O_RDWR O_CREAT in
            let flags :=
              match O_DIRECT pf with
              | Some o_direct =>
                  if negb (OSX pf) then Z.lor flags o_direct else flags
              | None => flags
              end in
            n <- lift_os (OS.open pf flags) ;;
            set_self (fun d => with_fd d (Some n)))
           (n <- lift_os (OS.open pf (Z.lor O_RDWR O_CREAT)) ;;
            set_self (fun d => with_fd d (Some n))) ;;
         d <- get_self ;;
         n <- attr "fd" (fd d) ;;
         st_size <- lift_os (OS.fstat_st_size n) ;;
         (if st_size <? size then lift_os (OS.ftruncate n size) else ret tt) ;;
         m <- lift_os (mmap_mmap n size) ;;
         set_self (fun d => with_mem d (Some m))) ;;
      match MADV_HUGEPAGE pf with
      | Some hp =>
          d <- get_self ;;
          m <- attr "mem" (mem d) ;;
          madvise m hp
      | None => ret tt
      end
  end.

Definition _might_close : M World unit :=
  set_self (fun d => with_count d (count d - 1)) ;;
  d <- get_self ;;
  if count d =? 0 then
    match shm d, fd d with
    | Some h, _ =>
        set_self (fun d => with_shm d (Some (SharedMemory_close h))) ;;
        lift_os (SharedMemory_unlink h)
    | None, Some n => lift_os (OS.close n)
    | None, None => ret tt
    end ;;
    set_self (fun d => with_size d None)
  else ret tt.

End WithPlatform.
End DiskDevice.

(** ** memoryview objects over the device's memory *)
Section Memoryview.
Import DiskDevice.

(** The bytes currently behind an object; a released view has none. *)
Definition obj_bytes (m : pyobj) (w : World) : option bytes :=
  match m with
  | PyNone => None
  | Mmap n => Some (firstn (Z.to_nat n) (OS.file_bytes (os w)))
  | ShmBuf =>
      match shm (self w) with
      | Some h => shm_buf h
      | None => None
      end
  end.

(** [memoryview(m)]. *)
Definition memoryview_of (m : pyobj) : M World memoryview :=
  w <- get ;;
  match m with
  | PyNone => raise TypeError
  | _ =>
      match obj_bytes m w with
      | Some b => ret {| obj := m; start := 0; nbytes := len b |}
      | None => raise ValueError
      end
  end.

(** [v[lo:hi]]: a view on the same object, clamped to [v]. *)
Definition getslice (v : memoryview) (lo hi : Z) : memoryview :=
  let (a, n) := slice_indices lo hi (nbytes v) in
  {| obj := obj v; start := start v + a; nbytes := n |}.

(** The bytes seen through [v]. *)
Definition tobytes (v : memoryview) : M World bytes :=
  w <- get ;;
  match obj_bytes (obj v) w with
  | Some b => ret (window (start v) (nbytes v) b)
  | None => raise ValueError
  end.

(** Store [src] into the object behind [v], at [v]'s place. *)
Definition obj_store (v : memoryview) (src : bytes) : M World unit :=
  w <- get ;;
  match obj v with
  | PyNone => raise TypeError
  | Mmap _ =>
      put {| self := self w;
             os := OS.with_file (os w)
                     (Some (overwrite (start v) src (OS.file_bytes (os w)))) |}
  | ShmBuf =>
      match shm (self w) with
      | Some {| shm_name := name; shm_buf := Some b |} =>
          put {| self := with_shm (self w)
                           (Some {| shm_name := name;
                                    shm_buf := Some (overwrite (start v) src b) |});
                 os := os w |}
      | _ => raise ValueError
      end
  end.

(** [v[:] = src]: the lengths must agree. *)
Definition setslice_all (v : memoryview) (src : bytes) : M World unit :=
  if len src =? nbytes v then obj_store v src else raise ValueError.

End Memoryview.

(** ** class DiskBuffer *)
Module DiskBuffer.
Import DiskDevice.

(** [device] refers to the device object; the world holds the one device the
    buffers of this development belong to, and the reference is kept as that
    device's [dname]. *)
Record t : Type := {
  device : string;
  size : Z;
  offset : Z
}.

Definition __init__ (device : string) (size : Z) (offset : Z) : t :=
  {| device := device; size := size; offset := offset |}.

Definition __repr__ (self : t) : string :=
  String.append "<DiskBuffer size="
    (String.append (str_int (size self))
       (String.append " offset="
          (String.append (str_int (offset self)) ">"))).

Definition _buf (self : t) : M World memoryview :=
  d <- get_self ;;
  m <- attr "mem" (mem d) ;;
  assert_ (negb (is_None m)) wasnt_opened ;;
  v <- memoryview_of m ;;
  ret (getslice v (offset self) (offset self + size self)).

End DiskBuffer.

(** ** class DiskAllocator *)
Module DiskAllocator.
Import DiskDevice.

Section WithPlatform.
Variable pf : Platform.
Context {Options : Type}.

Definition _alloc (size : Z) (options : Options) : M World DiskBuffer.t :=
  _might_open pf size ;;
  d <- get_self ;;
  ret (DiskBuffer.__init__ (dname d) size 0).

Definition _free (buf : DiskBuffer.t) (options : Options) : M World unit :=
  _might_close.

Definition as_buffer (src : DiskBuffer.t) : M World memoryview :=
  DiskBuffer._buf src.

Definition copyin (dest : DiskBuffer.t) (src : bytes) : M World unit :=
  v <- DiskBuffer._buf dest ;;
  setslice_all v src.

(** [io.FileIO(fd, "a+b", closefd=False)]: wraps a descriptor that is open. *)
Definition FileIO (n : Z) : M World unit :=
  w <- get ;;
  if OS.is_open n (os w) then ret tt else raise OSError.

(** [fo.seek(pos)] then [fo.readinto(dest)]: the bytes of the file from
    [pos] on, as many as [dest] holds or as the file has, replace the start
    of [dest]. *)
Definition seek_readinto (pos : Z) (dest : bytes) : M World bytes :=
  w <- get ;;
  if pos <? 0 then raise OSError
  else
    let data := window pos (len dest) (OS.file_bytes (os w)) in
    ret (data ++ skipn (List.length data) dest).

(** [dest] is the caller's writable view; the method takes its bytes and
    returns what they are afterwards. *)
Definition copyout (dest : bytes) (src : DiskBuffer.t) : M World bytes :=
  d <- get_self ;;
  match (if OSX pf then fd d else None) with
  | Some n =>
      FileIO n ;;
      seek_readinto (DiskBuffer.offset src) dest
  | None =>
      v <- DiskBuffer._buf src ;;
      if len dest =? nbytes v then tobytes v else raise ValueError
  end.

Definition offset (buf : DiskBuffer.t) (size : Z) (offset : Z)
  : M World DiskBuffer.t :=
  ret (DiskBuffer.__init__ (DiskBuffer.device buf) size offset).

End WithPlatform.
End DiskAllocator.

(** ** Sequences of allocator calls *)

Inductive call : Type :=
| Alloc (size : Z)
| Free (buf : DiskBuffer.t).

Definition exec (pf : Platform) (c : call) : M DiskDevice.World unit :=
  match c with
  | Alloc size => DiskAllocator._alloc pf size tt ;; ret tt
  | Free buf => DiskAllocator._free buf tt
  end.

(** The calls one after the other; an exception ends the run. *)
Fixpoint run (pf : Platform) (cs : list call) : M DiskDevice.World unit :=
  match cs with
  | [] => ret tt
  | c :: cs' => exec pf c ;; run pf cs'
  end.

(** The number of allocates minus the number of frees. *)
Fixpoint net (cs : list call) : Z :=
  match cs with
  | [] => 0
  | Alloc _ :: cs' => 1 + net cs'
  | Free _ :: cs' => net cs' - 1
  end.

(** Starting with [c] allocations outstanding, the number outstanding stays
    within [[lo, hi]] after every call of [cs]. *)
Fixpoint outstanding_within (lo hi c : Z) (cs : list call) : bool :=
  match cs with
  | [] => true
  | Alloc _ :: cs' =>
      (lo <=? c + 1) && (c + 1 <=? hi) && outstanding_within lo hi (c + 1) cs'
  | Free _ :: cs' =>
      (lo <=? c - 1) && (c - 1 <=? hi) && outstanding_within lo hi (c - 1) cs'
  end.

(** No prefix of [cs] has more frees than allocates. *)
Fixpoint frees_matched (c : Z) (cs : list call) : bool :=
  match cs with
  | [] => true
  | Alloc _ :: cs' => frees_matched (c + 1) cs'
  | Free _ :: cs' => (1 <=? c) && frees_matched (c - 1) cs'
  end.

(** A freshly constructed device over a given state of its resource. *)
Definition boot (device : string) (o : OS.t) : DiskDevice.World :=
  {| DiskDevice.self := DiskDevice.__init__ device; DiskDevice.os := o |}.

(** Nothing exists yet: no backing file, no descriptor, no segment. *)
Definition blank : OS.t :=
  {| OS.file := None; OS.fds := []; OS.shm_linked := false |}.

Definition linux : Platform :=
  {| OSX := false; O_DIRECT := Some 16384; MADV_HUGEPAGE := Some 14;
     open_ok := fun _ => true; madvise_ok := true |}.

(** Linux with the transparent huge pages turned off: the advice is
    refused. *)
Definition linux_no_thp : Platform :=
  {| OSX := false; O_DIRECT := Some 16384; MADV_HUGEPAGE := Some 14;
     open_ok := fun _ => true; madvise_ok := false |}.

Definition macos : Platform :=
  {| OSX := true; O_DIRECT := None; MADV_HUGEPAGE := None;
     open_ok := fun _ => true; madvise_ok := true |}.


(** A shared-memory device. *)
Definition shm_seg : string := "disk:shm:seg".

(** A file-backed device, and a buffer of four bytes on it. *)
Definition tmp_x : string := "disk:/tmp/x".
Definition buf4 : DiskBuffer.t := DiskBuffer.__init__ tmp_x 4 0.

(** The device of [tmp_x] after one allocate of four bytes on Linux, over a
    file that did not exist. *)
Definition opened4 : DiskDevice.World :=
  fst (DiskAllocator._alloc linux 4 tt (boot tmp_x blank)).

(** Four bytes to write, and a buffer of two bytes at offset 1. *)
Definition abcd : bytes := [x61; x62; x63; x64].
Definition buf2_at1 : DiskBuffer.t := DiskBuffer.__init__ tmp_x 2 1.

(** ** States of the region *)

Section States.
Import DiskDevice.

(** The world with one more, or one less, reference counted. *)
Definition bump (w : World) : World :=
  {| self := with_count (self w) (count (self w) + 1); os := os w |}.

Definition drop (w : World) : World :=
  {| self := with_count (self w) (count (self w) - 1); os := os w |}.

(** [disk:shm:<name>] rather than [disk:<path>]. *)
Definition is_shm (w : World) : bool :=
  prefix "shm:" (str_from 5 (dname (self w))).

(** The memory [self.mem] refers to, while it is mapped. *)
Definition mapping (w : World) : option bytes :=
  match mem (self w) with
  | Some m => obj_bytes m w
  | None => None
  end.

Definition mapping_exists (w : World) : bool :=
  match mapping w with
  | Some _ => true
  | None => false
  end.

(** The region is open with capacity [cap]: the capacity is set, and
    [self.mem] is a live mapping at least that long, either of the backing
    file through a descriptor that is still open, or of the segment behind
    the handle in [self.shm]. *)
Inductive region_open (w : World) (cap : Z) : Prop :=
| open_file (n k : Z) :
    size (self w) = Some cap ->
    mem (self w) = Some (Mmap n) ->
    fd (self w) = Some k ->
    OS.is_open k (os w) = true ->
    cap <= n ->
    n <= len (OS.file_bytes (os w)) ->
    region_open w cap
| open_shm (h : SharedMemory) (b : bytes) :
    size (self w) = Some cap ->
    mem (self w) = Some ShmBuf ->
    fd (self w) = None ->
    shm (self w) = Some h ->
    shm_buf h = Some b ->
    cap <= len b ->
    region_open w cap.

(** What a run of allocates and frees that never frees more than it has
    allocated keeps true of the device. *)
Definition consistent (w : World) : Prop :=
  0 <= count (self w) /\
  (0 < count (self w) <-> size (self w) <> None) /\
  (0 < count (self w) -> mapping_exists w = true).

(** Never opened, or closed again: nothing counted, no capacity, and a
    shared-memory device has never been given a descriptor. *)
Definition region_closed (w : World) : Prop :=
  count (self w) = 0 /\
  size (self w) = None /\
  (is_shm w = true -> fd (self w) = None).

End States.

(** * Properties *)

Import DiskDevice.

(** ** Symbolic execution of the methods *)

(** Unfold the monad, the methods and the system calls, and nothing of the
    libraries underneath (strings, bit operations, lists). *)
Ltac py_unfold :=
  cbv beta iota zeta delta
    [bind ret raise get put modify assert_ attr try_except_OSError is_OSError
     set_self get_self lift_os madvise
     _might_open _might_close
     SharedMemory_create SharedMemory_close SharedMemory_unlink mmap_mmap
     OS.open OS.close OS.fstat_st_size OS.ftruncate
     OS.with_file OS.with_fds OS.with_shm_linked
     OS.file OS.fds OS.shm_linked OS.file_bytes
     with_size with_count with_shm with_fd with_mem
     dname size count shm fd mem self os
     shm_name shm_buf obj start nbytes
     memoryview_of obj_bytes getslice tobytes obj_store setslice_all
     DiskBuffer.__init__ DiskBuffer._buf
     DiskBuffer.device DiskBuffer.size DiskBuffer.offset
     DiskAllocator._alloc DiskAllocator._free DiskAllocator.as_buffer
     DiskAllocator.copyin DiskAllocator.copyout DiskAllocator.offset
     DiskAllocator.FileIO DiskAllocator.seek_readinto
     exec negb is_None].

Ltac py_unfold_in H := revert H; py_unfold; intro H.

(** Split on the innermost condition the goal still branches on. *)
Ltac break_goal :=
  match goal with
  | |- context [match ?x with _ => _ end] =>
      lazymatch x with
      | context [match _ with _ => _ end] => fail
      | _ => destruct x eqn:?
      end
  end.

(** The same for an execution [H : ... = (w', Ok _)], dropping the branches
    that raise. *)
Ltac break_run H :=
  match type of H with
  | context [match ?x with _ => _ end] =>
      lazymatch x with
      | context [match _ with _ => _ end] => fail
      | _ => destruct x eqn:?; py_unfold_in H; try discriminate H
      end
  end.

(** Comparisons on [Z] that were decided, as propositions for [lia]. *)
Ltac bools_to_props :=
  repeat match goal with
  | H : (_ <? _) = true |- _ => apply Z.ltb_lt in H
  | H : (_ <? _) = false |- _ => apply Z.ltb_ge in H
  | H : (_ <=? _) = true |- _ => apply Z.leb_le in H
  | H : (_ <=? _) = false |- _ => apply Z.leb_gt in H
  | H : (_ =? _) = true |- _ => apply Z.eqb_eq in H
  | H : (_ =? _) = false |- _ => apply Z.eqb_neq in H
  end.

(** ** Lists of bytes *)

Lemma len_nonneg {A} (l : list A) : 0 <= len l.
Proof. unfold len. lia. Qed.

Lemma len_app {A} (l1 l2 : list A) : len (l1 ++ l2) = len l1 + len l2.
Proof. unfold len. rewrite length_app. lia. Qed.

Lemma len_firstn {A} (n : Z) (l : list A) :
  0 <= n <= len l -> len (firstn (Z.to_nat n) l) = n.
Proof. unfold len. intros H. rewrite length_firstn. lia. Qed.

Lemma len_overwrite {A} (lo : Z) (src l : list A) :
  0 <= lo -> lo + len src <= len l -> len (overwrite lo src l) = len l.
Proof.
  unfold overwrite, len. intros Hlo H.
  rewrite !length_app, length_firstn, length_skipn. lia.
Qed.


Lemma window_firstn {A} (lo k n : Z) (l : list A) :
  0 <= lo -> 0 <= k -> lo + k <= n ->
  window lo k (firstn (Z.to_nat n) l) = window lo k l.
Proof.
  unfold window. intros Hlo Hk H.
  rewrite skipn_firstn_comm, firstn_firstn. f_equal. lia.
Qed.

(** ** One call of [_might_open] and [_might_close] *)

(** On a device whose capacity is set, [_might_open] counts the reference,
    checks the requested size against the capacity, and does nothing else. *)
Lemma might_open_when_open pf n s w :
  size (self w) = Some s ->
  _might_open pf n w =
  (bump w, if n <=? s then Ok tt else Raise (CapacityExceeded s n)).
Proof.
  intros H. destruct w as [[dn sz c sh f m] o]. cbn in H. subst sz.
  unfold bump, CapacityExceeded. py_unfold.
  destruct (n <=? s); reflexivity.
Qed.

(** Whatever [_might_open] ends with, it has counted the reference. *)
Lemma might_open_count pf n w w' r :
  _might_open pf n w = (w', r) ->
  count (self w') = count (self w) + 1.
Proof.
  destruct (size (self w)) as [s|] eqn:Hs.
  - rewrite (might_open_when_open pf n s w Hs). intros H. inversion H. reflexivity.
  - destruct w as [[dn sz c sh f m] [fl fs lk]]. cbn in Hs. subst sz.
    py_unfold. repeat (break_goal; py_unfold);
      intros H; inversion H; subst; reflexivity.
Qed.

(** A [_might_close] that does not bring the count to 0 only uncounts the
    reference: no handle is closed, the capacity stays. *)
Lemma might_close_no_teardown w :
  count (self w) <> 1 ->
  _might_close w = (drop w, Ok tt).
Proof.
  intros H. destruct w as [[dn sz c sh f m] o]. cbn in H.
  unfold drop. py_unfold.
  destruct (c - 1 =? 0) eqn:E; [apply Z.eqb_eq in E; lia | reflexivity].
Qed.

(** A [_might_close] that brings the count to 0 and returns has reset the
    capacity. *)
Lemma might_close_teardown w w' :
  count (self w) = 1 ->
  _might_close w = (w', Ok tt) ->
  count (self w') = 0 /\ size (self w') = None.
Proof.
  intros Hc. destruct w as [[dn sz c sh f m] [fl fs lk]]. cbn in Hc. subst c.
  py_unfold. change (1 - 1 =? 0) with true. py_unfold.
  repeat (break_goal; py_unfold);
    intros H; inversion H; subst; split; reflexivity.
Qed.

Lemma might_close_count w w' r :
  _might_close w = (w', r) ->
  count (self w') = count (self w) - 1.
Proof.
  destruct w as [[dn sz c sh f m] [fl fs lk]].
  py_unfold. repeat (break_goal; py_unfold);
    intros H; inversion H; subst; reflexivity.
Qed.

Lemma is_open_fresh k l f lk :
  OS.is_open k {| OS.file := f; OS.fds := k :: l; OS.shm_linked := lk |} = true.
Proof. unfold OS.is_open. cbn. rewrite Z.eqb_refl. reflexivity. Qed.

Lemma len_zeros n : len (zeros n) = Z.max 0 n.
Proof. unfold len, zeros. rewrite repeat_length. lia. Qed.

Lemma len_resize (n : Z) (b : bytes) :
  0 <= n -> len (firstn (Z.to_nat n) b ++ zeros (n - len b)) = n.
Proof.
  intros H. rewrite len_app, len_zeros. unfold len. rewrite length_firstn. lia.
Qed.

(** The first [_might_open] of a closed device, when it returns, has opened
    the region with the requested size as capacity. *)
Lemma first_open_opens pf n w w' :
  size (self w) = None ->
  (is_shm w = true -> fd (self w) = None) ->
  _might_open pf n w = (w', Ok tt) ->
  region_open w' n.
Proof.
  destruct w as [[dn sz c sh f m] [fl fs lk]].
  unfold is_shm. cbn [size self fd dname].
  intros -> Hk H. py_unfold_in H.
  repeat break_run H.
  all: inversion H; subst; clear H; bools_to_props.
  all: try (eapply open_shm; cbn [size mem fd shm self os shm_buf];
            [ reflexivity | reflexivity | auto | reflexivity | reflexivity
            | rewrite len_zeros; lia ]).
  all: eapply open_file; cbn [size mem fd shm self os OS.file_bytes OS.file];
       [ reflexivity | reflexivity | reflexivity | apply is_open_fresh | .. ];
       rewrite ?len_resize by lia;
       match goal with
       | |- context [len ?b] => pose proof (len_nonneg b)
       | _ => idtac
       end;
       cbn [len List.length] in *; lia.
Qed.

(** In particular the capacity is set and the mapping exists, whatever the
    attributes of the device were before. *)
Lemma first_open_maps pf n w w' :
  size (self w) = None ->
  _might_open pf n w = (w', Ok tt) ->
  size (self w') = Some n /\ mapping_exists w' = true.
Proof.
  destruct w as [[dn sz c sh f m] [fl fs lk]]. cbn [size self].
  intros -> H. py_unfold_in H.
  repeat break_run H.
  all: inversion H; subst; clear H; split; reflexivity.
Qed.

Lemma region_open_maps w cap : region_open w cap -> mapping_exists w = true.
Proof.
  intros [n k _ Hm _ _ _ _ | h b _ Hm _ Hs Hb _];
    unfold mapping_exists, mapping;
    rewrite Hm; cbn [obj_bytes]; [reflexivity | rewrite Hs, Hb; reflexivity].
Qed.

Lemma region_open_bump w cap : region_open w cap -> region_open (bump w) cap.
Proof.
  intros [n k ? ? ? ? ? ? | h b ? ? ? ? ? ?];
    [eapply open_file | eapply open_shm]; eauto.
Qed.

Lemma region_open_drop w cap : region_open w cap -> region_open (drop w) cap.
Proof.
  intros [n k ? ? ? ? ? ? | h b ? ? ? ? ? ?];
    [eapply open_file | eapply open_shm]; eauto.
Qed.

(** ** Runs *)

Lemma exec_alloc_ok pf n w w' :
  exec pf (Alloc n) w = (w', Ok tt) -> _might_open pf n w = (w', Ok tt).
Proof.
  cbv beta iota delta [exec DiskAllocator._alloc bind get_self ret].
  destruct (_might_open pf n w) as [w1 [[]|e]]; intros H; inversion H; reflexivity.
Qed.

Lemma run_cons_ok pf c cs w w' :
  run pf (c :: cs) w = (w', Ok tt) ->
  exists w1, exec pf c w = (w1, Ok tt) /\ run pf cs w1 = (w', Ok tt).
Proof.
  cbn [run]. unfold bind.
  destruct (exec pf c w) as [w1 [[]|e]]; intros H; [eauto | discriminate].
Qed.

(** A run that returns has moved the count by the allocates minus the
    frees. *)
Lemma run_count pf cs : forall w w',
  run pf cs w = (w', Ok tt) ->
  count (self w') = count (self w) + net cs.
Proof.
  induction cs as [|c cs IH]; intros w w' H.
  - inversion H. cbn. lia.
  - apply run_cons_ok in H. destruct H as (w1 & Hc & Hr).
    apply IH in Hr. rewrite Hr. destruct c as [n|b]; cbn [net].
    + apply exec_alloc_ok, might_open_count in Hc. lia.
    + apply might_close_count in Hc. lia.
Qed.

Lemma alloc_consistent pf n w w' :
  consistent w ->
  _might_open pf n w = (w', Ok tt) ->
  consistent w'.
Proof.
  intros (Hc & Hs & Hm) H.
  destruct (size (self w)) as [s|] eqn:E.
  - rewrite (might_open_when_open pf n s w E) in H.
    assert (w' = bump w) by (inversion H; reflexivity). subst w'.
    assert (0 < count (self w)) by (apply Hs; discriminate).
    unfold consistent, bump, mapping_exists, mapping in *. destruct w as [[] ?].
    cbn in *. rewrite E. repeat split; try lia; try discriminate; auto.
  - pose proof (might_open_count pf n w w' _ H) as Hcnt.
    destruct (first_open_maps pf n w w' E H) as (Hs' & Hm').
    unfold consistent. rewrite Hs', Hcnt.
    repeat split; try lia; try discriminate; auto.
Qed.

Lemma free_consistent w w' :
  consistent w ->
  1 <= count (self w) ->
  _might_close w = (w', Ok tt) ->
  consistent w'.
Proof.
  intros (Hc & Hs & Hm) H1 H.
  destruct (Z.eq_dec (count (self w)) 1) as [E|E].
  - destruct (might_close_teardown w w' E H) as (Hc' & Hs').
    unfold consistent. rewrite Hc', Hs'.
    repeat split; try lia; intros; try lia; congruence.
  - rewrite (might_close_no_teardown w E) in H.
    assert (w' = drop w) by (inversion H; reflexivity). subst w'.
    unfold consistent, drop, mapping_exists, mapping in *. destruct w as [[] ?].
    cbn in *. repeat split; try lia.
    + intros _. apply Hs. lia.
    + intros _. apply Hm. lia.
Qed.

(** A run that never frees more than is allocated keeps the device
    consistent. *)
Lemma run_consistent pf cs : forall w w',
  consistent w ->
  frees_matched (count (self w)) cs = true ->
  run pf cs w = (w', Ok tt) ->
  consistent w'.
Proof.
  induction cs as [|c cs IH]; intros w w' Hw Hm H.
  - inversion H. subst. exact Hw.
  - apply run_cons_ok in H. destruct H as (w1 & Hc & Hr).
    destruct c as [n|b]; cbn [frees_matched] in Hm.
    + apply exec_alloc_ok in Hc.
      apply (IH w1 w'); [eapply alloc_consistent; eauto | | exact Hr].
      rewrite (might_open_count pf n w w1 _ Hc). exact Hm.
    + apply andb_true_iff in Hm. destruct Hm as (H1 & Hm).
      apply Z.leb_le in H1. cbn [exec DiskAllocator._free] in Hc.
      apply (IH w1 w'); [eapply free_consistent; eauto | | exact Hr].
      rewrite (might_close_count w w1 _ Hc). exact Hm.
Qed.

Lemma boot_consistent device o : consistent (boot device o).
Proof.
  unfold consistent, boot. cbn. repeat split; try lia; intros; try lia; congruence.
Qed.

(** While at most one allocation is outstanding on a device whose count is
    one short, no free tears the region down. *)
Lemma shallow_keeps_open pf cap cs : forall c w w',
  region_open w cap ->
  0 <= c <= 1 ->
  count (self w) = c - 1 ->
  outstanding_within 0 1 c cs = true ->
  run pf cs w = (w', Ok tt) ->
  region_open w' cap.
Proof.
  induction cs as [|x cs IH]; intros c w w' Ho Hc Hn Hs H.
  - inversion H. subst. exact Ho.
  - apply run_cons_ok in H. destruct H as (w1 & Hx & Hr).
    destruct x as [n|b]; cbn [outstanding_within] in Hs;
      apply andb_true_iff in Hs; destruct Hs as (Hb & Hs);
      apply andb_true_iff in Hb; destruct Hb as (Hlo & Hhi);
      bools_to_props.
    + apply exec_alloc_ok in Hx.
      assert (Hsz : size (self w) = Some cap) by (destruct Ho; assumption).
      rewrite (might_open_when_open pf n cap w Hsz) in Hx.
      assert (w1 = bump w) by (inversion Hx; reflexivity). subst w1.
      apply (IH (c + 1) (bump w) w'); auto using region_open_bump; try lia.
      cbn. lia.
    + cbn [exec DiskAllocator._free] in Hx.
      rewrite might_close_no_teardown in Hx by lia.
      assert (w1 = drop w) by (inversion Hx; reflexivity). subst w1.
      apply (IH (c - 1) (drop w) w'); auto using region_open_drop; try lia.
      cbn. lia.
Qed.

(** * The claims *)

(** C1 (as amended).  Calling free when the reference count is 0 does not
    fail: the call returns normally, changes nothing but the count, and the
    count becomes -1. *)
Theorem free_at_count_zero_returns
    (Options : Type) (options : Options) (buf : DiskBuffer.t) (w : World) :
  count (self w) = 0 ->
  DiskAllocator._free buf options w = (drop w, Ok tt) /\
  count (self (drop w)) = -1.
Proof.
  intros H. split.
  - unfold DiskAllocator._free. apply might_close_no_teardown. lia.
  - cbn. lia.
Qed.

Lemma free_at_count_zero_returns_witness :
  count (self (boot tmp_x blank)) = 0 /\
  DiskAllocator._free buf4 tt (boot tmp_x blank)
    = (drop (boot tmp_x blank), Ok tt) /\
  count (self (drop (boot tmp_x blank))) = -1.
Proof.
  split; [reflexivity | apply (free_at_count_zero_returns unit tt buf4); reflexivity].
Defined.

(** C1 (as stated) fails: on a device that was never opened, whose count is
    0, free returns normally instead of raising. *)
Lemma free_at_count_zero_no_InvalidState :
  count (self (boot tmp_x blank)) = 0 /\
  snd (DiskAllocator._free buf4 tt (boot tmp_x blank)) = Ok tt.
Proof. split; reflexivity. Qed.

(** C5.  On a region open with capacity S1, an allocate of a size S2 > S1
    fails with CapacityExceeded and an allocate of a size S2 <= S1 returns a
    buffer of that size at offset 0; either way the capacity stays S1. *)
Theorem alloc_while_open
    (pf : Platform) (Options : Type) (options : Options)
    (w : World) (S1 S2 : Z) :
  size (self w) = Some S1 ->
  DiskAllocator._alloc pf S2 options w =
    (bump w,
     if S1 <? S2 then Raise (CapacityExceeded S1 S2)
     else Ok (DiskBuffer.__init__ (dname (self w)) S2 0)) /\
  size (self (bump w)) = Some S1.
Proof.
  intros H. split; [|exact H].
  unfold DiskAllocator._alloc, bind.
  rewrite (might_open_when_open pf S2 S1 w H), Z.ltb_antisym.
  destruct (S2 <=? S1); reflexivity.
Qed.

(** C8.  The offset operation returns a buffer on the same device with the
    given size and the given offset, taken as it is and not added to the
    offset of the buffer it is derived from; nothing else changes. *)
Theorem offset_is_absolute
    (base : DiskBuffer.t) (size offset : Z) (w : World) :
  DiskAllocator.offset base size offset w =
    (w, Ok {| DiskBuffer.device := DiskBuffer.device base;
              DiskBuffer.size := size;
              DiskBuffer.offset := offset |}).
Proof. reflexivity. Qed.

(** Derived from a buffer at offset 1 with offset 2, the buffer is at offset
    2, not 3. *)
Example offset_of_derived :
  snd (DiskAllocator.offset buf2_at1 1 2 opened4)
    = Ok (DiskBuffer.__init__ tmp_x 1 2).
Proof. reflexivity. Qed.

Lemma alloc_while_open_witness :
  size (self opened4) = Some 4 /\
  (DiskAllocator._alloc linux 8 tt opened4
     = (bump opened4, Raise (CapacityExceeded 4 8)) /\
   size (self (bump opened4)) = Some 4) /\
  (DiskAllocator._alloc linux 2 tt opened4
     = (bump opened4, Ok (DiskBuffer.__init__ tmp_x 2 0)) /\
   size (self (bump opened4)) = Some 4).
Proof.
  split; [reflexivity|].
  split; [apply (alloc_while_open linux unit tt opened4 4 8)
         |apply (alloc_while_open linux unit tt opened4 4 2)]; reflexivity.
Defined.

(** C3 (as amended).  In every state reached from a new device by allocate
    and free calls that all return and of which no free comes when nothing
    is outstanding, the count is >= 0, the capacity is set if and only if the
    count is > 0, and the mapping exists whenever the count is > 0. *)
Theorem matched_run_consistent
    (pf : Platform) (device : string) (o : OS.t)
    (cs : list call) (w' : World) :
  frees_matched 0 cs = true ->
  run pf cs (boot device o) = (w', Ok tt) ->
  0 <= count (self w') /\
  (0 < count (self w') <-> size (self w') <> None) /\
  (0 < count (self w') -> mapping_exists w' = true).
Proof.
  intros Hm H.
  exact (run_consistent pf cs (boot device o) w' (boot_consistent device o) Hm H).
Qed.

Lemma matched_run_consistent_witness :
  let cs := [Alloc 4; Alloc 2; Free buf4] in
  let w' := fst (run linux cs (boot tmp_x blank)) in
  frees_matched 0 cs = true /\
  run linux cs (boot tmp_x blank) = (w', Ok tt) /\
  0 <= count (self w') /\
  (0 < count (self w') <-> size (self w') <> None) /\
  (0 < count (self w') -> mapping_exists w' = true).
Proof.
  intros cs w'.
  split; [reflexivity|]. split; [reflexivity|].
  apply (matched_run_consistent linux tmp_x blank cs w'); reflexivity.
Defined.

(** C3 (as stated) fails: one free on a new device is a sequence of allocate
    and free calls, and it leaves the count at -1. *)
Lemma negative_count_reachable :
  exists w,
    run linux [Free buf4] (boot tmp_x blank) = (w, Ok tt) /\
    count (self w) = -1.
Proof.
  exists (fst (run linux [Free buf4] (boot tmp_x blank))).
  vm_compute. split; reflexivity.
Qed.

(** C4 (as amended).  Every sequence of allocate and free calls on a new
    device that all return, of which no free comes when nothing is
    outstanding, and with as many frees as allocates, ends with the count at
    0 and the capacity unset. *)
Theorem matched_balanced_run_closes
    (pf : Platform) (device : string) (o : OS.t)
    (cs : list call) (w' : World) :
  frees_matched 0 cs = true ->
  net cs = 0 ->
  run pf cs (boot device o) = (w', Ok tt) ->
  count (self w') = 0 /\ size (self w') = None.
Proof.
  intros Hm Hn H.
  pose proof (run_count pf cs _ _ H) as Hc. cbn in Hc.
  destruct (run_consistent pf cs (boot device o) w'
              (boot_consistent device o) Hm H) as (_ & Hs & _).
  split; [lia|].
  destruct (size (self w')) eqn:E; [|reflexivity].
  assert (0 < count (self w')) by (apply Hs; discriminate). lia.
Qed.

Lemma matched_balanced_run_closes_witness :
  let cs := [Alloc 4; Alloc 2; Free buf4; Free buf4] in
  let w' := fst (run linux cs (boot tmp_x blank)) in
  frees_matched 0 cs = true /\
  net cs = 0 /\
  run linux cs (boot tmp_x blank) = (w', Ok tt) /\
  count (self w') = 0 /\ size (self w') = None.
Proof.
  intros cs w'.
  split; [reflexivity|]. split; [reflexivity|]. split; [reflexivity|].
  apply (matched_balanced_run_closes linux tmp_x blank cs w'); reflexivity.
Defined.

(** C4 (as stated) fails: a free followed by an allocate has as many frees
    as allocates, and ends with the capacity set and the descriptor open. *)
Lemma balanced_run_left_open :
  net [Free buf4; Alloc 4] = 0 /\
  exists w,
    run linux [Free buf4; Alloc 4] (boot tmp_x blank) = (w, Ok tt) /\
    count (self w) = 0 /\
    size (self w) = Some 4 /\
    mem (self w) = Some (Mmap 4) /\
    OS.fds (os w) = [3].
Proof.
  split; [reflexivity|].
  exists (fst (run linux [Free buf4; Alloc 4] (boot tmp_x blank))).
  vm_compute. repeat split; reflexivity.
Qed.

(** C9 (as amended).  A free on a closed device, whose count is 0, raises
    nothing, changes nothing but the count, and leaves the count at -1.
    From then on every session of allocates and frees that returns and has
    as many frees as allocates brings the count back to -1; and if the
    session never has more than one allocation outstanding, no free of it
    tears the region down: the region it opened is still open at its end,
    with its capacity. *)
Theorem stray_free_then_sessions
    (pf : Platform) (w : World) (buf : DiskBuffer.t)
    (cs : list call) (w' : World) :
  region_closed w ->
  net cs = 0 ->
  run pf cs (drop w) = (w', Ok tt) ->
  DiskAllocator._free buf tt w = (drop w, Ok tt) /\
  count (self (drop w)) = -1 /\
  count (self w') = -1 /\
  (outstanding_within 0 1 0 cs = true -> cs <> [] ->
   exists cap, region_open w' cap).
Proof.
  intros (Hc & Hs & Hk) Hn H.
  assert (Hd : count (self (drop w)) = -1) by (cbn; lia).
  split; [unfold DiskAllocator._free; apply might_close_no_teardown; lia|].
  split; [exact Hd|].
  split; [rewrite (run_count pf cs _ _ H); lia|].
  intros Hsh Hne.
  destruct cs as [|[n|b] cs]; [congruence| |discriminate Hsh].
  apply run_cons_ok in H. destruct H as (w1 & Hx & Hr).
  apply exec_alloc_ok in Hx.
  exists n.
  cbn [outstanding_within] in Hsh.
  apply andb_true_iff in Hsh. destruct Hsh as (_ & Hsh).
  apply (shallow_keeps_open pf n cs 1 w1); auto; try lia.
  - apply (first_open_opens pf n (drop w)); auto.
  - rewrite (might_open_count pf n (drop w) w1 _ Hx). lia.
Qed.

Lemma stray_free_then_sessions_witness :
  let cs := [Alloc 4; Free buf4; Alloc 2; Free buf4] in
  let w := boot tmp_x blank in
  let w' := fst (run linux cs (drop w)) in
  region_closed w /\
  net cs = 0 /\
  run linux cs (drop w) = (w', Ok tt) /\
  DiskAllocator._free buf4 tt w = (drop w, Ok tt) /\
  count (self (drop w)) = -1 /\
  count (self w') = -1 /\
  exists cap, region_open w' cap.
Proof.
  intros cs w w'.
  assert (Hc : region_closed w) by (repeat split; reflexivity).
  split; [exact Hc|]. split; [reflexivity|]. split; [reflexivity|].
  destruct (stray_free_then_sessions linux w buf4 cs w' Hc)
    as (H1 & H2 & H3 & H4); try reflexivity.
  repeat split; auto.
  apply H4; [reflexivity | discriminate].
Defined.

(** C9 (as stated) fails: after a free on a new device, the session of two
    allocates and two frees is torn down by its first free, which brings the
    count from 1 to 0: at the end of the session the capacity is unset and
    the descriptor in [self.fd] is closed. *)
Lemma nested_session_torn_down :
  net [Alloc 4; Alloc 4; Free buf4; Free buf4] = 0 /\
  exists w,
    run linux [Alloc 4; Alloc 4; Free buf4; Free buf4]
      (drop (boot tmp_x blank)) = (w, Ok tt) /\
    count (self w) = -1 /\
    size (self w) = None /\
    fd (self w) = Some 3 /\
    OS.is_open 3 (os w) = false.
Proof.
  split; [reflexivity|].
  exists (fst (run linux [Alloc 4; Alloc 4; Free buf4; Free buf4]
                 (drop (boot tmp_x blank)))).
  vm_compute. repeat split; reflexivity.
Qed.

(** ** Slices and copies *)

Lemma slice_indices_inside lo k n :
  0 <= lo -> 0 <= k -> lo + k <= n ->
  slice_indices lo (lo + k) n = (lo, k).
Proof.
  intros Hlo Hk H. unfold slice_indices, adjust_index.
  destruct (lo <? 0) eqn:E1; [apply Z.ltb_lt in E1; lia|].
  destruct (lo + k <? 0) eqn:E2; [apply Z.ltb_lt in E2; lia|].
  rewrite !Z.min_l by lia.
  destruct (lo <? lo + k) eqn:E3; bools_to_props; f_equal; lia.
Qed.

(** A slice that runs past the end of a sequence of length [n] is cut at
    [n]. *)
Lemma slice_indices_clamped lo k n :
  0 <= n -> 0 < k -> n < lo + k ->
  exists a m, slice_indices lo (lo + k) n = (a, m) /\
              a + m = n /\ 0 <= m < k.
Proof.
  intros Hn Hk H. unfold slice_indices, adjust_index.
  destruct (lo + k <? 0) eqn:E2; [apply Z.ltb_lt in E2; lia|].
  rewrite (Z.min_r (lo + k) n) by lia.
  destruct (lo <? 0) eqn:E1; bools_to_props.
  - destruct (Z.max (lo + n) 0 <? n) eqn:E3; bools_to_props;
      do 2 eexists; (split; [reflexivity|]); lia.
  - destruct (Z.min lo n <? n) eqn:E3; bools_to_props;
      do 2 eexists; (split; [reflexivity|]); lia.
Qed.






(** Whatever the bounds asked for, the slice lies within the sequence. *)
Lemma slice_indices_bounds lo hi n a m :
  0 <= n -> slice_indices lo hi n = (a, m) ->
  0 <= a /\ 0 <= m /\ a + m <= n.
Proof.
  unfold slice_indices, adjust_index. intros Hn H.
  injection H as <- <-.
  destruct (lo <? 0) eqn:E1; destruct (hi <? 0) eqn:E2;
    match goal with |- context [if ?c then _ else _] => destruct c eqn:E end;
    bools_to_props; lia.
Qed.

(** A copyin that returns leaves the region open: the view it writes
    through never reaches past the mapping. *)
Lemma copyin_keeps_open w cap slice src w1 :
  region_open w cap ->
  DiskAllocator.copyin slice src w = (w1, Ok tt) ->
  region_open w1 cap.
Proof.
  destruct slice as [dev sz off].
  destruct w as [[dn s c sh f m] [fl fs lk]].
  intros Ho H.
  destruct Ho as [n k Hs Hm Hf Hk Hcap Hn | h b Hs Hm Hf Hh Hb Hcap];
    unfold OS.file_bytes, OS.is_open in *;
    cbn [size mem fd shm self os OS.file OS.fds] in *; subst.
  - set (file := match fl with Some b => b | None => [] end) in *.
    py_unfold_in H. fold file in H.
    pose proof (len_nonneg file).
    assert (0 <= n \/ n < 0) as [Hn0|Hn0] by lia.
    + rewrite len_firstn in H by lia.
      destruct (slice_indices off (off + sz) n) as [a m] eqn:Hsl.
      py_unfold_in H. fold file in H.
      destruct (slice_indices_bounds _ _ _ _ _ Hn0 Hsl) as (Ha & Hm & Ham).
      destruct (len src =? m) eqn:E; [|discriminate H].
      apply Z.eqb_eq in E. py_unfold_in H. injection H as <-.
      eapply open_file; cbn [size mem fd self os]; try reflexivity.
      * exact Hk.
      * exact Hcap.
      * unfold OS.file_bytes. cbn [OS.file]. fold file.
        rewrite len_overwrite by lia. exact Hn.
    + replace (Z.to_nat n) with 0%nat in H by lia. cbn [firstn] in H.
      change (len []) with 0 in H.
      destruct (slice_indices off (off + sz) 0) as [a m] eqn:Hsl.
      py_unfold_in H. fold file in H.
      destruct (slice_indices_bounds _ _ _ _ _ (Z.le_refl 0) Hsl) as (Ha & Hm & Ham).
      destruct (len src =? m) eqn:E; [|discriminate H].
      apply Z.eqb_eq in E. py_unfold_in H. injection H as <-.
      eapply open_file; cbn [size mem fd self os]; try reflexivity.
      * exact Hk.
      * exact Hcap.
      * match goal with |- _ <= len ?l => pose proof (len_nonneg l) end. lia.
  - destruct h as [nm hb]. cbn [shm_buf] in Hb. subst hb.
    py_unfold_in H.
    destruct (slice_indices off (off + sz) (len b)) as [a m] eqn:Hsl.
    py_unfold_in H.
    destruct (slice_indices_bounds _ _ _ _ _ (len_nonneg b) Hsl) as (Ha & Hm & Ham).
    destruct (len src =? m) eqn:E; [|discriminate H].
    apply Z.eqb_eq in E. py_unfold_in H. injection H as <-.
    eapply open_shm; cbn [size mem fd shm self os shm_buf]; try reflexivity.
    rewrite len_overwrite by lia. exact Hcap.
Qed.




(** On a shared-memory device [self.mem] is a memoryview, which has no
    [madvise]: where the hint exists, the first open raises after the
    segment has been created. *)
Lemma shm_open_with_hint_raises :
  let r := _might_open linux 4 (boot "disk:shm:seg" blank) in
  snd r = Raise (AttributeError "madvise") /\
  OS.shm_linked (os (fst r)) = true.
Proof. vm_compute. split; reflexivity. Qed.

(** C10 (as amended).  The raw view checks no bounds: for a slice of size
    > 0 whose offset + size is past the end of the mapping, the view is cut
    at the end of the mapping and is shorter than the slice, as_buffer
    returns it without error, and a copyin of as many bytes as the slice's
    size fails with a length mismatch. *)
Theorem clamped_view_length_mismatch
    (w : World) (slice : DiskBuffer.t) (bs src : bytes) :
  mapping w = Some bs ->
  0 < DiskBuffer.size slice ->
  len bs < DiskBuffer.offset slice + DiskBuffer.size slice ->
  len src = DiskBuffer.size slice ->
  exists v,
    DiskAllocator.as_buffer slice w = (w, Ok v) /\
    start v + nbytes v = len bs /\
    0 <= nbytes v < DiskBuffer.size slice /\
    DiskAllocator.copyin slice src w = (w, Raise LengthMismatch).
Proof.
  destruct slice as [dev sz off]. cbn [DiskBuffer.offset DiskBuffer.size].
  destruct w as [[dn s c sh f m] o]. unfold mapping. cbn [mem self].
  intros Hm Hsz Hout Hsrc.
  destruct m as [m|]; [|discriminate].
  destruct (slice_indices_clamped off sz (len bs) (len_nonneg bs) Hsz Hout)
    as (a & k & Hsl & Hend & Hk).
  exists {| obj := m; start := 0 + a; nbytes := k |}.
  assert (Hv : DiskBuffer._buf
                 {| DiskBuffer.device := dev; DiskBuffer.size := sz;
                    DiskBuffer.offset := off |}
                 {| self := {| dname := dn; size := s; count := c;
                               shm := sh; fd := f; mem := Some m |};
                    os := o |}
               = ({| self := {| dname := dn; size := s; count := c;
                                shm := sh; fd := f; mem := Some m |};
                     os := o |},
                  Ok {| obj := m; start := 0 + a; nbytes := k |})).
  { destruct m as [|n|]; [discriminate| |]; py_unfold; py_unfold_in Hm.
    - injection Hm as Hm. rewrite Hm, Hsl. reflexivity.
    - rewrite Hm. py_unfold. rewrite Hsl. reflexivity. }
  split; [exact Hv|]. cbn [start nbytes].
  split; [lia|]. split; [lia|].
  unfold DiskAllocator.copyin, bind. rewrite Hv.
  unfold setslice_all. cbn [nbytes].
  destruct (len src =? k) eqn:E; [apply Z.eqb_eq in E; lia | reflexivity].
Qed.

Lemma clamped_view_length_mismatch_witness :
  let slice := DiskBuffer.__init__ tmp_x 4 2 in
  mapping opened4 = Some (zeros 4) /\
  0 < DiskBuffer.size slice /\
  len (zeros 4) < DiskBuffer.offset slice + DiskBuffer.size slice /\
  len abcd = DiskBuffer.size slice /\
  exists v,
    DiskAllocator.as_buffer slice opened4 = (opened4, Ok v) /\
    start v + nbytes v = len (zeros 4) /\
    0 <= nbytes v < DiskBuffer.size slice /\
    DiskAllocator.copyin slice abcd opened4 = (opened4, Raise LengthMismatch).
Proof.
  intros slice.
  split; [reflexivity|]. split; [reflexivity|].
  split; [reflexivity|]. split; [reflexivity|].
  apply (clamped_view_length_mismatch opened4 slice (zeros 4) abcd);
    reflexivity.
Defined.

(** C10 (as stated) fails for an empty slice: a slice of size 0 at offset 5
    of a mapping of 4 bytes is past its end, yet its view is as long as
    requested and the copyin of its 0 bytes returns. *)
Lemma empty_slice_past_end_copies :
  let slice := DiskBuffer.__init__ tmp_x 0 5 in
  mapping opened4 = Some (zeros 4) /\
  len (zeros 4) < DiskBuffer.offset slice + DiskBuffer.size slice /\
  DiskAllocator.as_buffer slice opened4
    = (opened4, Ok {| obj := Mmap 4; start := 4; nbytes := 0 |}) /\
  DiskAllocator.copyin slice [] opened4 = (opened4, Ok tt).
Proof. vm_compute. repeat split; reflexivity. Qed.

(** ** [self.mem] is never None

    No method assigns None to [self.mem], so the assertion of [_buf] holds
    whenever the attribute exists. *)








(** C2.  The code does not do what the claim says: after the allocate and
    its free the count is 0 and the capacity unset, but [self.mem] still
    refers to the mapping, so the assertion of [_buf] passes; as_buffer
    returns a view, copyin writes the file through it and copyout reads it
    back, none raising NotOpen. *)
Lemma use_after_free_not_detected :
  let w := fst (run linux [Alloc 4; Free buf4] (boot tmp_x blank)) in
  let w1 := fst (DiskAllocator.copyin buf4 abcd w) in
  snd (run linux [Alloc 4; Free buf4] (boot tmp_x blank)) = Ok tt /\
  count (self w) = 0 /\
  size (self w) = None /\
  mem (self w) = Some (Mmap 4) /\
  DiskAllocator.as_buffer buf4 w
    = (w, Ok {| obj := Mmap 4; start := 0; nbytes := 4 |}) /\
  snd (DiskAllocator.copyin buf4 abcd w) = Ok tt /\
  OS.file (os w1) = Some abcd /\
  DiskAllocator.copyout linux (zeros 4) buf4 w1 = (w1, Ok abcd).
Proof. vm_compute. repeat split; reflexivity. Qed.

(** The other paths do not raise NotOpen either: the descriptor path reads
    through a closed descriptor, a released shared-memory view cannot be
    wrapped, and a device that was never opened has no [mem] at all. *)
Lemma use_after_free_other_paths :
  let w := fst (run macos [Alloc 4; Free buf4] (boot tmp_x blank)) in
  let s := fst (run macos [Alloc 4; Free buf4] (boot "disk:shm:seg" blank)) in
  snd (DiskAllocator.copyout macos (zeros 4) buf4 w) = Raise OSError /\
  snd (DiskAllocator.as_buffer buf4 s) = Raise ValueError /\
  snd (DiskAllocator.as_buffer buf4 (boot tmp_x blank))
    = Raise (AttributeError "mem").
Proof. vm_compute. repeat split; reflexivity. Qed.

(** * Further properties *)

(** ** More on lists of bytes *)

(* ---- list lemmas ---- *)
Lemma firstn_overwrite {A} (lo n : Z) (src l : list A) :
  0 <= lo -> lo + len src <= n -> n <= len l ->
  firstn (Z.to_nat n) (overwrite lo src l)
  = overwrite lo src (firstn (Z.to_nat n) l).
Proof.
  unfold overwrite, len. intros Hlo H Hn.
  rewrite firstn_firstn, Nat.min_l by lia.
  rewrite skipn_firstn_comm.
  rewrite firstn_app, length_firstn, Nat.min_l by lia.
  rewrite (firstn_all2 (firstn (Z.to_nat lo) l))
    by (rewrite length_firstn; lia).
  f_equal. rewrite firstn_app.
  rewrite (firstn_all2 src) by lia.
  f_equal. f_equal. lia.
Qed.


(** Reading beside what was just written. *)
Lemma window_overwrite_outside {A} (lo1 lo2 k : Z) (src l : list A) :
  0 <= lo1 -> 0 <= lo2 -> 0 <= k ->
  lo1 + len src <= len l ->
  lo2 + k <= lo1 \/ lo1 + len src <= lo2 ->
  window lo2 k (overwrite lo1 src l) = window lo2 k l.
Proof.
  unfold window, overwrite, len. intros H1 H2 Hk Hl [Hd|Hd].
  - rewrite skipn_app, length_firstn, Nat.min_l by lia.
    rewrite firstn_app, length_skipn, length_firstn, Nat.min_l by lia.
    replace (Z.to_nat k - (Z.to_nat lo1 - Z.to_nat lo2))%nat with 0%nat by lia.
    cbn [firstn]. rewrite app_nil_r.
    rewrite skipn_firstn_comm, firstn_firstn. f_equal. lia.
  - rewrite app_assoc, skipn_app.
    rewrite (skipn_all2 (firstn (Z.to_nat lo1) l ++ src))
      by (rewrite length_app, length_firstn; lia).
    cbn [app]. rewrite length_app, length_firstn, Nat.min_l by lia.
    rewrite skipn_skipn. f_equal. f_equal. lia.
Qed.


Lemma len_window {A} (lo k : Z) (l : list A) :
  0 <= lo -> 0 <= k -> lo + k <= len l -> len (window lo k l) = k.
Proof.
  unfold window, len. intros Hlo Hk H.
  rewrite length_firstn, length_skipn. lia.
Qed.

(** ** What a copy does to the store *)

Lemma copyin_file w n slice B :
  mem (self w) = Some (Mmap n) ->
  0 <= DiskBuffer.offset slice ->
  0 <= DiskBuffer.size slice ->
  DiskBuffer.offset slice + DiskBuffer.size slice <= n ->
  n <= len (OS.file_bytes (os w)) ->
  len B = DiskBuffer.size slice ->
  DiskAllocator.copyin slice B w =
    ({| self := self w;
        os := OS.with_file (os w)
                (Some (overwrite (DiskBuffer.offset slice) B
                         (OS.file_bytes (os w)))) |}, Ok tt).
Proof.
  destruct slice as [dev sz off]. cbn [DiskBuffer.offset DiskBuffer.size].
  destruct w as [[dn s c sh f m] [fl fs lk]].
  unfold OS.file_bytes. cbn [mem self os OS.file].
  intros -> Hoff Hsz Hin Hn HB.
  set (file := match fl with Some b => b | None => [] end) in *.
  py_unfold. fold file. rewrite len_firstn by lia.
  rewrite slice_indices_inside by lia. py_unfold.
  rewrite HB, Z.eqb_refl, Z.add_0_l. reflexivity.
Qed.

Lemma copyin_shm w name b slice B :
  mem (self w) = Some ShmBuf ->
  shm (self w) = Some {| shm_name := name; shm_buf := Some b |} ->
  0 <= DiskBuffer.offset slice ->
  0 <= DiskBuffer.size slice ->
  DiskBuffer.offset slice + DiskBuffer.size slice <= len b ->
  len B = DiskBuffer.size slice ->
  DiskAllocator.copyin slice B w =
    ({| self := with_shm (self w)
                  (Some {| shm_name := name;
                           shm_buf := Some (overwrite (DiskBuffer.offset slice) B b) |});
        os := os w |}, Ok tt).
Proof.
  destruct slice as [dev sz off]. cbn [DiskBuffer.offset DiskBuffer.size].
  destruct w as [[dn s c sh f m] o]. cbn [mem shm self os].
  intros -> -> Hoff Hsz Hin HB.
  py_unfold. rewrite slice_indices_inside by lia. py_unfold.
  rewrite HB, Z.eqb_refl, Z.add_0_l. reflexivity.
Qed.

Lemma copyout_file pf w n slice dest :
  mem (self w) = Some (Mmap n) ->
  match fd (self w) with
  | Some k => OS.is_open k (os w) = true
  | None => True
  end ->
  0 <= DiskBuffer.offset slice ->
  0 <= DiskBuffer.size slice ->
  DiskBuffer.offset slice + DiskBuffer.size slice <= n ->
  n <= len (OS.file_bytes (os w)) ->
  len dest = DiskBuffer.size slice ->
  DiskAllocator.copyout pf dest slice w =
    (w, Ok (window (DiskBuffer.offset slice) (DiskBuffer.size slice)
              (OS.file_bytes (os w)))).
Proof.
  destruct slice as [dev sz off]. cbn [DiskBuffer.offset DiskBuffer.size].
  destruct w as [[dn s c sh f m] [fl fs lk]].
  unfold OS.file_bytes, OS.is_open. cbn [mem fd self os OS.file OS.fds].
  intros -> Hk Hoff Hsz Hin Hn Hd.
  set (file := match fl with Some b => b | None => [] end) in *.
  py_unfold. unfold OS.is_open. py_unfold. fold file.
  destruct (OSX pf), f as [k|]; py_unfold; fold file.
  1: { rewrite Hk. py_unfold. fold file.
       destruct (off <? 0) eqn:E; [apply Z.ltb_lt in E; lia|].
       rewrite Hd.
       assert (Hw : len (window off sz file) = sz) by (apply len_window; lia).
       unfold len in Hw. rewrite skipn_all2 by (unfold len in Hd; lia).
       rewrite app_nil_r. reflexivity. }
  all: rewrite len_firstn by lia;
       rewrite slice_indices_inside by lia; py_unfold; fold file;
       rewrite Hd, Z.eqb_refl, Z.add_0_l;
       rewrite window_firstn by lia; reflexivity.
Qed.

Lemma copyout_shm pf w h b slice dest :
  mem (self w) = Some ShmBuf ->
  fd (self w) = None ->
  shm (self w) = Some h ->
  shm_buf h = Some b ->
  0 <= DiskBuffer.offset slice ->
  0 <= DiskBuffer.size slice ->
  DiskBuffer.offset slice + DiskBuffer.size slice <= len b ->
  len dest = DiskBuffer.size slice ->
  DiskAllocator.copyout pf dest slice w =
    (w, Ok (window (DiskBuffer.offset slice) (DiskBuffer.size slice) b)).
Proof.
  destruct slice as [dev sz off]. cbn [DiskBuffer.offset DiskBuffer.size].
  destruct w as [[dn s c sh f m] o]. destruct h as [nm hb].
  cbn [mem fd shm self os shm_buf].
  intros -> -> -> -> Hoff Hsz Hin Hd.
  py_unfold. destruct (OSX pf); py_unfold.
  all: rewrite slice_indices_inside by lia; py_unfold;
       rewrite Hd, Z.eqb_refl, Z.add_0_l; reflexivity.
Qed.

Lemma copyin_region w cap slice B :
  region_open w cap ->
  0 <= DiskBuffer.offset slice ->
  0 <= DiskBuffer.size slice ->
  DiskBuffer.offset slice + DiskBuffer.size slice <= cap ->
  len B = DiskBuffer.size slice ->
  exists bs w1,
    mapping w = Some bs /\ cap <= len bs /\
    DiskAllocator.copyin slice B w = (w1, Ok tt) /\
    mapping w1 = Some (overwrite (DiskBuffer.offset slice) B bs) /\
    region_open w1 cap.
Proof.
  intros Ho Hoff Hsz Hin HB.
  destruct Ho as [n k Hs Hm Hf Hk Hcap Hn | h b Hs Hm Hf Hh Hb Hcap].
  - pose proof (len_nonneg (OS.file_bytes (os w))) as Hl.
    eexists. eexists. split; [unfold mapping; rewrite Hm; reflexivity|].
    split; [rewrite len_firstn; lia|].
    split; [apply (copyin_file w n); auto; lia|].
    assert (Hlen : len (overwrite (DiskBuffer.offset slice) B (OS.file_bytes (os w)))
                   = len (OS.file_bytes (os w)))
      by (apply len_overwrite; lia).
    split.
    + unfold mapping. cbn [self mem]. rewrite Hm. cbn [obj_bytes os].
      unfold OS.file_bytes at 1. cbn [OS.file OS.with_file].
      rewrite firstn_overwrite by lia. reflexivity.
    + apply (open_file _ _ n k); cbn [self os]; auto.
      unfold OS.file_bytes at 1. cbn [OS.file OS.with_file]. lia.
  - destruct h as [nm hb]. cbn [shm_buf] in Hb. subst hb.
    eexists. eexists. split; [unfold mapping; rewrite Hm; cbn [obj_bytes]; rewrite Hh; reflexivity|].
    split; [exact Hcap|].
    split; [apply (copyin_shm w nm b); auto; lia|].
    split.
    + unfold mapping. cbn [self mem with_shm]. rewrite Hm. reflexivity.
    + apply (open_shm _ _
               {| shm_name := nm;
                  shm_buf := Some (overwrite (DiskBuffer.offset slice) B b) |}
               (overwrite (DiskBuffer.offset slice) B b));
        cbn [self mem size fd shm with_shm shm_buf]; auto.
      rewrite len_overwrite by lia. exact Hcap.
Qed.

Lemma copyout_region pf w cap slice dest :
  region_open w cap ->
  0 <= DiskBuffer.offset slice ->
  0 <= DiskBuffer.size slice ->
  DiskBuffer.offset slice + DiskBuffer.size slice <= cap ->
  len dest = DiskBuffer.size slice ->
  exists bs,
    mapping w = Some bs /\
    DiskAllocator.copyout pf dest slice w =
      (w, Ok (window (DiskBuffer.offset slice) (DiskBuffer.size slice) bs)).
Proof.
  intros Ho Hoff Hsz Hin Hd.
  destruct Ho as [n k Hs Hm Hf Hk Hcap Hn | h b Hs Hm Hf Hh Hb Hcap].
  - eexists. split; [unfold mapping; rewrite Hm; reflexivity|].
    rewrite (copyout_file pf w n); auto; try lia.
    + rewrite window_firstn by lia. reflexivity.
    + rewrite Hf. exact Hk.
  - exists b. split; [unfold mapping; rewrite Hm; cbn [obj_bytes]; rewrite Hh; exact Hb|].
    apply (copyout_shm pf w h b); auto; lia.
Qed.





(** X3.  A copyin through one slice does not change what copyout reads
    through a slice that does not overlap it. *)
Theorem write_leaves_disjoint_slice
    (pf : Platform) (w : World) (cap : Z)
    (s1 s2 : DiskBuffer.t) (B dest : bytes) :
  region_open w cap ->
  0 <= DiskBuffer.offset s1 ->
  DiskBuffer.offset s1 + DiskBuffer.size s1 <= cap ->
  0 <= DiskBuffer.offset s2 ->
  0 <= DiskBuffer.size s2 ->
  DiskBuffer.offset s2 + DiskBuffer.size s2 <= cap ->
  DiskBuffer.offset s2 + DiskBuffer.size s2 <= DiskBuffer.offset s1 \/
  DiskBuffer.offset s1 + DiskBuffer.size s1 <= DiskBuffer.offset s2 ->
  len B = DiskBuffer.size s1 ->
  len dest = DiskBuffer.size s2 ->
  exists w1,
    DiskAllocator.copyin s1 B w = (w1, Ok tt) /\
    snd (DiskAllocator.copyout pf dest s2 w1)
    = snd (DiskAllocator.copyout pf dest s2 w).
Proof.
  intros Ho H1 Hin1 H2 Hs2 Hin2 Hdis HB Hd.
  pose proof (len_nonneg B) as HBn.
  destruct (copyin_region w cap s1 B Ho) as (bs & w1 & Hm & Hc & Hw & Hm1 & Ho1);
    auto; try lia.
  destruct (copyout_region pf w1 cap s2 dest Ho1) as (bs1 & Hm1' & Hr1);
    auto; try lia.
  destruct (copyout_region pf w cap s2 dest Ho) as (bs0 & Hm0 & Hr0);
    auto; try lia.
  exists w1. split; [exact Hw|].
  rewrite Hr1, Hr0. cbn [snd].
  rewrite Hm1 in Hm1'. injection Hm1' as <-.
  rewrite Hm in Hm0. injection Hm0 as <-.
  rewrite window_overwrite_outside by lia. reflexivity.
Qed.

Lemma write_leaves_disjoint_slice_witness :
  let s1 := DiskBuffer.__init__ tmp_x 2 2 in
  let s2 := DiskBuffer.__init__ tmp_x 2 0 in
  region_open opened4 4 /\
  0 <= DiskBuffer.offset s1 /\
  DiskBuffer.offset s1 + DiskBuffer.size s1 <= 4 /\
  0 <= DiskBuffer.offset s2 /\
  0 <= DiskBuffer.size s2 /\
  DiskBuffer.offset s2 + DiskBuffer.size s2 <= 4 /\
  (DiskBuffer.offset s2 + DiskBuffer.size s2 <= DiskBuffer.offset s1 \/
   DiskBuffer.offset s1 + DiskBuffer.size s1 <= DiskBuffer.offset s2) /\
  len [x61; x62] = DiskBuffer.size s1 /\
  len (zeros 2) = DiskBuffer.size s2 /\
  exists w1,
    DiskAllocator.copyin s1 [x61; x62] opened4 = (w1, Ok tt) /\
    snd (DiskAllocator.copyout linux (zeros 2) s2 w1)
    = snd (DiskAllocator.copyout linux (zeros 2) s2 opened4).
Proof.
  intros s1 s2.
  assert (Ho : region_open opened4 4).
  { apply (first_open_opens linux 4 (boot tmp_x blank));
      [reflexivity | intros _; reflexivity | reflexivity]. }
  split; [exact Ho|].
  do 6 (split; [cbn; lia|]).
  split; [reflexivity|]. split; [reflexivity|].
  apply (write_leaves_disjoint_slice linux opened4 4 s1 s2
           [x61; x62] (zeros 2));
    try exact Ho; cbn; try lia; reflexivity.
Defined.

(** ** More on one call of [_might_open] and [_might_close] *)

Lemma resize_pads (n : Z) (b : bytes) :
  len b < n ->
  firstn (Z.to_nat n) b ++ zeros (n - len b)
  = b ++ repeat x00 (Z.to_nat (n - len b)).
Proof.
  unfold len, zeros. intros H. rewrite firstn_all2 by lia. reflexivity.
Qed.

(** What [_might_close] never touches, however it ends. *)
Lemma might_close_frame w w' r :
  _might_close w = (w', r) ->
  OS.file (os w') = OS.file (os w) /\
  dname (self w') = dname (self w) /\
  mem (self w') = mem (self w) /\
  fd (self w') = fd (self w).
Proof.
  destruct w as [[dn sz c sh f m] [fl fs lk]].
  py_unfold. repeat (break_goal; py_unfold);
    intros H; inversion H; subst; repeat split; reflexivity.
Qed.

(** [_might_open] only ever pads the backing file with zero bytes. *)
Lemma might_open_pads pf n w w' r :
  _might_open pf n w = (w', r) ->
  dname (self w') = dname (self w) /\
  exists k : nat,
    OS.file_bytes (os w') = OS.file_bytes (os w) ++ repeat x00 k.
Proof.
  destruct w as [[dn sz c sh f m] [fl fs lk]]. unfold OS.file_bytes.
  py_unfold.
  repeat (break_goal; py_unfold); intros H; inversion H; subst; clear H;
    (split; [reflexivity|]); cbn [os OS.file];
    bools_to_props; rewrite ?resize_pads by assumption;
    try (exists 0%nat; cbn [repeat]; rewrite app_nil_r; reflexivity);
    try (eexists; reflexivity).
Qed.

(** A first open of a file-backed device that returns. *)
Lemma first_open_file pf n w w' :
  size (self w) = None ->
  is_shm w = false ->
  _might_open pf n w = (w', Ok tt) ->
  exists m k,
    size (self w') = Some n /\
    mem (self w') = Some (Mmap m) /\
    fd (self w') = Some k /\
    shm (self w') = shm (self w) /\
    OS.is_open k (os w') = true /\
    0 <= n /\ n <= m /\ m <= len (OS.file_bytes (os w')).
Proof.
  destruct w as [[dn sz c sh f m] [fl fs lk]].
  unfold is_shm. cbn [size self fd dname shm].
  intros -> Hk H. py_unfold_in H. rewrite Hk in H. py_unfold_in H.
  repeat break_run H.
  all: inversion H; subst; clear H; bools_to_props.
  all: do 2 eexists; cbn [size mem fd shm self os OS.file_bytes OS.file];
       (split; [reflexivity|]); (split; [reflexivity|]);
       (split; [reflexivity|]); (split; [reflexivity|]);
       (split; [apply is_open_fresh|]);
       rewrite ?len_resize by lia;
       match goal with
       | |- context [len ?b] => pose proof (len_nonneg b)
       | _ => idtac
       end;
       cbn [len List.length] in *; lia.
Qed.

(** A first open of a shared-memory device that returns. *)
Lemma first_open_shm pf n w w' :
  size (self w) = None ->
  is_shm w = true ->
  _might_open pf n w = (w', Ok tt) ->
  0 < n /\
  size (self w') = Some n /\
  mem (self w') = Some ShmBuf /\
  fd (self w') = fd (self w) /\
  exists name,
    shm (self w') = Some {| shm_name := name; shm_buf := Some (zeros n) |}.
Proof.
  destruct w as [[dn sz c sh f m] [fl fs lk]].
  unfold is_shm. cbn [size self fd dname shm].
  intros -> Hk H. py_unfold_in H. rewrite Hk in H. py_unfold_in H.
  repeat break_run H.
  all: inversion H; subst; clear H; bools_to_props.
  all: cbn [size mem fd shm self]; repeat split; try lia; eexists; reflexivity.
Qed.

(** A first open that raises has already set the capacity. *)
Lemma first_open_raise pf n w w' e :
  size (self w) = None ->
  _might_open pf n w = (w', Raise e) ->
  size (self w') = Some n.
Proof.
  destruct w as [[dn sz c sh f m] [fl fs lk]]. cbn [size self].
  intros ->. py_unfold.
  repeat (break_goal; py_unfold); intros H; inversion H; subst; reflexivity.
Qed.

Lemma might_open_kind pf n w w' r :
  (is_shm w = true -> fd (self w) = None) ->
  _might_open pf n w = (w', r) ->
  (is_shm w' = true -> fd (self w') = None).
Proof.
  destruct w as [[dn sz c sh f m] [fl fs lk]].
  unfold is_shm. cbn [self dname fd].
  intros Hk. py_unfold.
  repeat (break_goal; py_unfold); intros H; inversion H; subst; clear H;
    cbn [self dname fd]; try assumption; intros; auto; congruence.
Qed.

Lemma alloc_world pf (Options : Type) (options : Options) n w :
  fst (DiskAllocator._alloc pf n options w) = fst (_might_open pf n w).
Proof.
  cbv beta iota delta [DiskAllocator._alloc bind get_self ret].
  destruct (_might_open pf n w) as [w1 [[]|e]]; reflexivity.
Qed.

Lemma alloc_ok_inv pf (Options : Type) (options : Options) n w w' b :
  DiskAllocator._alloc pf n options w = (w', Ok b) ->
  _might_open pf n w = (w', Ok tt) /\
  b = DiskBuffer.__init__ (dname (self w')) n 0.
Proof.
  cbv beta iota delta [DiskAllocator._alloc bind get_self ret].
  destruct (_might_open pf n w) as [w1 [[]|e]]; intros H; inversion H.
  split; reflexivity.
Qed.

Lemma alloc_raise_inv pf (Options : Type) (options : Options) n w w' e :
  DiskAllocator._alloc pf n options w = (w', Raise e) ->
  _might_open pf n w = (w', Raise e).
Proof.
  cbv beta iota delta [DiskAllocator._alloc bind get_self ret].
  destruct (_might_open pf n w) as [w1 [[]|e1]]; intros H; inversion H.
  reflexivity.
Qed.

Lemma drop_bump w : drop (bump w) = w.
Proof.
  destruct w as [[dn sz c sh f m] o]. unfold drop, bump, with_count.
  cbn [self os dname size count shm fd mem].
  replace (c + 1 - 1) with c by lia. reflexivity.
Qed.

(** X4.  An allocate counts one reference and a free uncounts one however
    the call ends, also when it raises. *)
Theorem alloc_and_free_always_count
    (pf : Platform) (Options : Type) (options : Options)
    (n : Z) (buf : DiskBuffer.t) (w : World) :
  count (self (fst (DiskAllocator._alloc pf n options w)))
    = count (self w) + 1 /\
  count (self (fst (DiskAllocator._free buf options w)))
    = count (self w) - 1.
Proof.
  split.
  - rewrite alloc_world.
    destruct (_might_open pf n w) as [w1 r] eqn:E.
    exact (might_open_count pf n w w1 r E).
  - unfold DiskAllocator._free.
    destruct (_might_close w) as [w1 r] eqn:E.
    exact (might_close_count w w1 r E).
Qed.

(** X5.  On a device whose capacity is set and whose count is not 0, an
    allocate followed by a free leaves the device and its resource exactly
    as they were, whether the allocate returned or raised
    CapacityExceeded. *)
Theorem nested_alloc_free_restores
    (pf : Platform) (Options : Type) (options : Options)
    (n s : Z) (buf : DiskBuffer.t) (w : World) :
  size (self w) = Some s ->
  count (self w) <> 0 ->
  DiskAllocator._free buf options
    (fst (DiskAllocator._alloc pf n options w)) = (w, Ok tt).
Proof.
  intros Hs Hc. rewrite alloc_world.
  rewrite (might_open_when_open pf n s w Hs). cbn [fst].
  unfold DiskAllocator._free.
  rewrite might_close_no_teardown by (cbn; lia).
  rewrite drop_bump. reflexivity.
Qed.

Lemma nested_alloc_free_restores_witness :
  size (self opened4) = Some 4 /\
  count (self opened4) <> 0 /\
  DiskAllocator._free buf4 tt (fst (DiskAllocator._alloc linux 8 tt opened4))
    = (opened4, Ok tt) /\
  DiskAllocator._free buf4 tt (fst (DiskAllocator._alloc linux 2 tt opened4))
    = (opened4, Ok tt).
Proof.
  assert (Hc : count (self opened4) <> 0) by (vm_compute; discriminate).
  split; [reflexivity|]. split; [exact Hc|].
  split; [apply (nested_alloc_free_restores linux unit tt 8 4 buf4 opened4)
         |apply (nested_alloc_free_restores linux unit tt 2 4 buf4 opened4)];
    try exact Hc; reflexivity.
Defined.

(** X6.  The first allocate on a closed device, when it returns, has
    opened the region with the requested size as capacity, which is not
    negative; the count is 1 and the buffer returned has that size and
    offset 0. *)
Theorem first_alloc_opens_region
    (pf : Platform) (Options : Type) (options : Options)
    (n : Z) (w w' : World) (b : DiskBuffer.t) :
  region_closed w ->
  DiskAllocator._alloc pf n options w = (w', Ok b) ->
  region_open w' n /\
  0 <= n /\
  count (self w') = 1 /\
  b = DiskBuffer.__init__ (dname (self w)) n 0.
Proof.
  intros (Hc & Hs & Hk) H.
  apply alloc_ok_inv in H. destruct H as (H & ->).
  split; [exact (first_open_opens pf n w w' Hs Hk H)|].
  split.
  - destruct (is_shm w) eqn:E.
    + destruct (first_open_shm pf n w w' Hs E H) as (Hn & _). lia.
    + destruct (first_open_file pf n w w' Hs E H)
        as (m & k & _ & _ & _ & _ & _ & Hn & _). exact Hn.
  - split; [rewrite (might_open_count pf n w w' _ H); lia|].
    destruct (might_open_pads pf n w w' _ H) as (-> & _). reflexivity.
Qed.

Lemma first_alloc_opens_region_witness :
  region_closed (boot tmp_x blank) /\
  DiskAllocator._alloc linux 4 tt (boot tmp_x blank) = (opened4, Ok buf4) /\
  region_open opened4 4 /\
  0 <= 4 /\
  count (self opened4) = 1 /\
  buf4 = DiskBuffer.__init__ (dname (self (boot tmp_x blank))) 4 0.
Proof.
  assert (Hc : region_closed (boot tmp_x blank))
    by (repeat split; reflexivity).
  split; [exact Hc|]. split; [reflexivity|].
  apply (first_alloc_opens_region linux unit tt 4 (boot tmp_x blank)
           opened4 buf4 Hc).
  reflexivity.
Defined.

Lemma exec_pads pf c w w' r :
  exec pf c w = (w', r) ->
  exists k : nat,
    OS.file_bytes (os w') = OS.file_bytes (os w) ++ repeat x00 k.
Proof.
  destruct c as [n|b]; cbn [exec].
  - intros H.
    assert (Hw : w' = fst (_might_open pf n w)).
    { revert H. cbv beta iota delta [DiskAllocator._alloc bind get_self ret].
      destruct (_might_open pf n w) as [w1 [[]|e]]; intros H; inversion H;
        reflexivity. }
    destruct (_might_open pf n w) as [w1 r1] eqn:E. cbn [fst] in Hw. subst w1.
    exact (proj2 (might_open_pads pf n w w' r1 E)).
  - unfold DiskAllocator._free. intros H.
    destruct (might_close_frame w w' r H) as (Hf & _).
    exists 0%nat. unfold OS.file_bytes. rewrite Hf. cbn [repeat].
    rewrite app_nil_r. reflexivity.
Qed.

(** X7.  No sequence of allocate and free calls, however it ends, changes
    or removes a byte the backing file had: the file afterwards is the file
    before followed by zero bytes. *)
Theorem runs_only_pad_file
    (pf : Platform) (cs : list call) (w w' : World) (r : result unit) :
  run pf cs w = (w', r) ->
  exists k : nat,
    OS.file_bytes (os w') = OS.file_bytes (os w) ++ repeat x00 k.
Proof.
  revert w. induction cs as [|c cs IH]; intros w H.
  - inversion H. exists 0%nat. cbn [repeat]. rewrite app_nil_r. reflexivity.
  - cbn [run] in H. unfold bind in H.
    destruct (exec pf c w) as [w1 [[]|e]] eqn:E.
    + destruct (exec_pads pf c w w1 _ E) as (k1 & H1).
      destruct (IH w1 H) as (k2 & H2).
      exists (k1 + k2)%nat. rewrite H2, H1, <- app_assoc, repeat_app.
      reflexivity.
    + inversion H. subst. exact (exec_pads pf c w w' _ E).
Qed.

Lemma runs_only_pad_file_witness :
  let cs := [Alloc 4; Free buf4; Alloc 8] in
  let w' := fst (run linux cs opened4) in
  run linux cs opened4 = (w', snd (run linux cs opened4)) /\
  exists k : nat,
    OS.file_bytes (os w') = OS.file_bytes (os opened4) ++ repeat x00 k.
Proof.
  intros cs w'. split; [reflexivity|].
  apply (runs_only_pad_file linux cs opened4 w' (snd (run linux cs opened4))).
  reflexivity.
Defined.

(** X8.  A first allocate that raises has already set the capacity: a
    later allocate of a size within it returns at once, counting the
    reference and opening nothing. *)
Theorem failed_first_open_pins_capacity
    (pf : Platform) (Options : Type) (options : Options)
    (n m : Z) (e : exn) (w w1 : World) :
  size (self w) = None ->
  DiskAllocator._alloc pf n options w = (w1, Raise e) ->
  m <= n ->
  DiskAllocator._alloc pf m options w1 =
    (bump w1, Ok (DiskBuffer.__init__ (dname (self w1)) m 0)).
Proof.
  intros Hs H Hm. apply alloc_raise_inv in H.
  pose proof (first_open_raise pf n w w1 e Hs H) as Hs1.
  unfold DiskAllocator._alloc, bind.
  rewrite (might_open_when_open pf m n w1 Hs1).
  destruct (m <=? n) eqn:E; [reflexivity | apply Z.leb_gt in E; lia].
Qed.

Lemma failed_first_open_pins_capacity_witness :
  let w1 := fst (DiskAllocator._alloc linux_no_thp 4 tt (boot tmp_x blank)) in
  size (self (boot tmp_x blank)) = None /\
  DiskAllocator._alloc linux_no_thp 4 tt (boot tmp_x blank)
    = (w1, Raise OSError) /\
  2 <= 4 /\
  DiskAllocator._alloc linux_no_thp 2 tt w1 =
    (bump w1, Ok (DiskBuffer.__init__ (dname (self w1)) 2 0)).
Proof.
  intros w1. split; [reflexivity|]. split; [reflexivity|]. split; [lia|].
  apply (failed_first_open_pins_capacity linux_no_thp unit tt 4 2 OSError
           (boot tmp_x blank) w1); [reflexivity | reflexivity | lia].
Defined.

(** X9.  A free raises only while tearing down, when it has brought the
    count from 1 to 0; the capacity is then left as it was, not reset. *)
Theorem free_that_raises_keeps_capacity
    (Options : Type) (options : Options)
    (buf : DiskBuffer.t) (w w' : World) (e : exn) :
  DiskAllocator._free buf options w = (w', Raise e) ->
  count (self w) = 1 /\
  count (self w') = 0 /\
  size (self w') = size (self w).
Proof.
  unfold DiskAllocator._free.
  destruct w as [[dn sz c sh f m] [fl fs lk]].
  py_unfold. repeat (break_goal; py_unfold);
    intros H; inversion H; subst; bools_to_props;
    cbn [count size self]; repeat split; lia.
Qed.



Lemma free_that_raises_keeps_capacity_witness :
  let w := fst (run macos [Alloc 4; Free buf4; Alloc 0] (boot shm_seg blank)) in
  let w' := fst (DiskAllocator._free buf4 tt w) in
  DiskAllocator._free buf4 tt w = (w', Raise FileNotFoundError) /\
  count (self w) = 1 /\
  count (self w') = 0 /\
  size (self w') = size (self w).
Proof.
  intros w w'. split; [reflexivity|].
  apply (free_that_raises_keeps_capacity unit tt buf4 w w' FileNotFoundError).
  reflexivity.
Defined.



Lemma is_shm_dname w w' :
  dname (self w') = dname (self w) -> is_shm w' = is_shm w.
Proof. unfold is_shm. intros ->. reflexivity. Qed.

Lemma exec_kind pf c w w' r :
  (is_shm w = true -> fd (self w) = None) ->
  exec pf c w = (w', r) ->
  (is_shm w' = true -> fd (self w') = None).
Proof.
  intros Hk. destruct c as [n|b]; cbn [exec].
  - intros H.
    assert (Hw : w' = fst (_might_open pf n w)).
    { revert H. cbv beta iota delta [DiskAllocator._alloc bind get_self ret].
      destruct (_might_open pf n w) as [w1 [[]|e]]; intros H; inversion H;
        reflexivity. }
    destruct (_might_open pf n w) as [w1 r1] eqn:E. cbn [fst] in Hw. subst w1.
    exact (might_open_kind pf n w w' r1 Hk E).
  - unfold DiskAllocator._free. intros H.
    destruct (might_close_frame w w' r H) as (_ & Hd & _ & Hf).
    rewrite (is_shm_dname w w' Hd), Hf. exact Hk.
Qed.

Lemma run_kind pf cs : forall w w' r,
  (is_shm w = true -> fd (self w) = None) ->
  run pf cs w = (w', r) ->
  (is_shm w' = true -> fd (self w') = None).
Proof.
  induction cs as [|c cs IH]; intros w w' r Hk H.
  - inversion H. subst. exact Hk.
  - cbn [run] in H. unfold bind in H.
    destruct (exec pf c w) as [w1 [[]|e]] eqn:E.
    + apply (IH w1 w' r); [exact (exec_kind pf c w w1 _ Hk E) | exact H].
    + inversion H. subst. exact (exec_kind pf c w w' _ Hk E).
Qed.

(** X12.  After a run from a new device that never freed more than it had
    allocated and has freed everything, an allocate of any size that returns
    has opened the region with that size as capacity, larger than before or
    not. *)
Theorem reopen_takes_new_capacity
    (pf : Platform) (device : string) (o : OS.t) (cs : list call)
    (Options : Type) (options : Options)
    (m : Z) (w' w'' : World) (b : DiskBuffer.t) :
  frees_matched 0 cs = true ->
  net cs = 0 ->
  run pf cs (boot device o) = (w', Ok tt) ->
  DiskAllocator._alloc pf m options w' = (w'', Ok b) ->
  region_open w'' m.
Proof.
  intros Hm Hn H Ha.
  pose proof (run_count pf cs _ _ H) as Hc. cbn in Hc.
  destruct (run_consistent pf cs (boot device o) w'
              (boot_consistent device o) Hm H) as (_ & Hs & _).
  assert (Hsz : size (self w') = None).
  { destruct (size (self w')) eqn:E; [|reflexivity].
    assert (0 < count (self w')) by (apply Hs; discriminate). lia. }
  apply alloc_ok_inv in Ha. destruct Ha as (Ha & _).
  apply (first_open_opens pf m w' w'' Hsz); [|exact Ha].
  apply (run_kind pf cs (boot device o) w' (Ok tt)); [|exact H].
  intros _. reflexivity.
Qed.

Lemma reopen_takes_new_capacity_witness :
  let cs := [Alloc 4; Free buf4] in
  let w' := fst (run linux cs (boot tmp_x blank)) in
  let w'' := fst (DiskAllocator._alloc linux 8 tt w') in
  frees_matched 0 cs = true /\
  net cs = 0 /\
  run linux cs (boot tmp_x blank) = (w', Ok tt) /\
  DiskAllocator._alloc linux 8 tt w'
    = (w'', Ok (DiskBuffer.__init__ tmp_x 8 0)) /\
  region_open w'' 8.
Proof.
  intros cs w' w''.
  split; [reflexivity|]. split; [reflexivity|]. split; [reflexivity|].
  split; [reflexivity|].
  apply (reopen_takes_new_capacity linux tmp_x blank cs unit tt 8 w' w''
           (DiskBuffer.__init__ tmp_x 8 0)); reflexivity.
Defined.

(** X13.  The free that closes a shared-memory region unlinks the segment
    and releases the view: as_buffer on any slice then raises
    ValueError. *)
Theorem shm_use_after_close_raises
    (Options : Type) (options : Options)
    (buf slice : DiskBuffer.t) (h : SharedMemory) (w w' : World) :
  mem (self w) = Some ShmBuf ->
  shm (self w) = Some h ->
  count (self w) = 1 ->
  DiskAllocator._free buf options w = (w', Ok tt) ->
  OS.shm_linked (os w') = false /\
  DiskAllocator.as_buffer slice w' = (w', Raise ValueError).
Proof.
  destruct w as [[dn sz c sh f m] [fl fs lk]]. cbn [mem shm count self].
  intros -> -> -> H. py_unfold_in H. change (1 - 1 =? 0) with true in H.
  py_unfold_in H. repeat break_run H.
  inversion H; subst; clear H. split; reflexivity.
Qed.

Lemma shm_use_after_close_raises_witness :
  let w := fst (DiskAllocator._alloc macos 4 tt (boot shm_seg blank)) in
  let h := {| shm_name := "seg"; shm_buf := Some (zeros 4) |} in
  let w' := fst (DiskAllocator._free buf4 tt w) in
  mem (self w) = Some ShmBuf /\
  shm (self w) = Some h /\
  count (self w) = 1 /\
  DiskAllocator._free buf4 tt w = (w', Ok tt) /\
  OS.shm_linked (os w') = false /\
  DiskAllocator.as_buffer buf4 w' = (w', Raise ValueError).
Proof.
  intros w h w'.
  split; [reflexivity|]. split; [reflexivity|]. split; [reflexivity|].
  split; [reflexivity|].
  apply (shm_use_after_close_raises unit tt buf4 buf4 h w w'); reflexivity.
Defined.

Lemma is_open_removed k fs f lk :
  OS.is_open k
    {| OS.file := f;
       OS.fds := filter (fun x => negb (k =? x)) fs;
       OS.shm_linked := lk |} = false.
Proof.
  unfold OS.is_open. cbn [OS.fds].
  induction fs as [|x fs IH]; [reflexivity|].
  cbn [filter]. destruct (k =? x) eqn:E; cbn [negb]; [exact IH|].
  cbn [existsb]. rewrite E, IH. reflexivity.
Qed.

(** X14.  The free that closes a file-backed region closes its
    descriptor: on the descriptor path copyout then raises OSError. *)
Theorem descriptor_path_after_close_raises
    (pf : Platform) (Options : Type) (options : Options)
    (buf slice : DiskBuffer.t) (dest : bytes) (k : Z) (w w' : World) :
  OSX pf = true ->
  shm (self w) = None ->
  fd (self w) = Some k ->
  count (self w) = 1 ->
  DiskAllocator._free buf options w = (w', Ok tt) ->
  OS.is_open k (os w') = false /\
  DiskAllocator.copyout pf dest slice w' = (w', Raise OSError).
Proof.
  destruct w as [[dn sz c sh f m] [fl fs lk]]. cbn [fd shm count self].
  intros Hx -> -> -> H. py_unfold_in H. change (1 - 1 =? 0) with true in H.
  py_unfold_in H. repeat break_run H.
  inversion H; subst; clear H. cbn [os].
  split; [apply is_open_removed|].
  py_unfold. rewrite Hx. py_unfold. rewrite is_open_removed. reflexivity.
Qed.

Lemma descriptor_path_after_close_raises_witness :
  let w := fst (DiskAllocator._alloc macos 4 tt (boot tmp_x blank)) in
  let w' := fst (DiskAllocator._free buf4 tt w) in
  OSX macos = true /\
  shm (self w) = None /\
  fd (self w) = Some 3 /\
  count (self w) = 1 /\
  DiskAllocator._free buf4 tt w = (w', Ok tt) /\
  OS.is_open 3 (os w') = false /\
  DiskAllocator.copyout macos (zeros 4) buf4 w' = (w', Raise OSError).
Proof.
  intros w w'.
  do 5 (split; [reflexivity|]).
  apply (descriptor_path_after_close_raises macos unit tt buf4 buf4 (zeros 4)
           3 w w'); reflexivity.
Defined.



(** X16.  as_buffer, copyout and offset leave the device and its resource
    as they were, whatever they return or raise. *)
Theorem reads_never_write
    (pf : Platform) (slice : DiskBuffer.t) (dest : bytes)
    (size offset : Z) (w : World) :
  fst (DiskAllocator.as_buffer slice w) = w /\
  fst (DiskAllocator.copyout pf dest slice w) = w /\
  fst (DiskAllocator.offset slice size offset w) = w.
Proof.
  destruct w as [[dn sz c sh f m] [fl fs lk]].
  repeat split; py_unfold; unfold OS.is_open;
    repeat (break_goal; py_unfold); reflexivity.
Qed.

(** X17.  A copyin that raises has written nothing. *)
Theorem failed_copyin_writes_nothing
    (slice : DiskBuffer.t) (src : bytes) (w w' : World) (e : exn) :
  DiskAllocator.copyin slice src w = (w', Raise e) ->
  w' = w.
Proof.
  destruct w as [[dn sz c sh f m] [fl fs lk]].
  py_unfold. repeat (break_goal; py_unfold);
    intros H; inversion H; reflexivity.
Qed.

Lemma failed_copyin_writes_nothing_witness :
  let w' := fst (DiskAllocator.copyin buf4 [x61] opened4) in
  DiskAllocator.copyin buf4 [x61] opened4 = (w', Raise ValueError) /\
  w' = opened4.
Proof.
  intros w'. split; [reflexivity|].
  apply (failed_copyin_writes_nothing buf4 [x61] opened4 w' ValueError).
  reflexivity.
Defined.

(** X18.  copyin leaves an open region open with the same capacity,
    whatever the slice and the bytes and however the call ends. *)
Theorem copyin_keeps_region_open
    (w w' : World) (cap : Z) (slice : DiskBuffer.t) (src : bytes)
    (r : result unit) :
  region_open w cap ->
  DiskAllocator.copyin slice src w = (w', r) ->
  region_open w' cap.
Proof.
  intros Ho H. destruct r as [[]|e].
  - exact (copyin_keeps_open w cap slice src w' Ho H).
  - destruct w as [[dn sz c sh f m] [fl fs lk]].
    revert H. py_unfold. repeat (break_goal; py_unfold);
      intros H; inversion H; subst; exact Ho.
Qed.

Lemma copyin_keeps_region_open_witness :
  let w' := fst (DiskAllocator.copyin buf2_at1 [x61; x62] opened4) in
  region_open opened4 4 /\
  DiskAllocator.copyin buf2_at1 [x61; x62] opened4 = (w', Ok tt) /\
  region_open w' 4.
Proof.
  intros w'.
  assert (Ho : region_open opened4 4).
  { apply (first_open_opens linux 4 (boot tmp_x blank));
      [reflexivity | intros _; reflexivity | reflexivity]. }
  split; [exact Ho|]. split; [reflexivity|].
  apply (copyin_keeps_region_open opened4 w' 4 buf2_at1 [x61; x62] (Ok tt) Ho).
  reflexivity.
Defined.

(** X19.  On an open region, copyin of bytes whose number is not the size
    of a slice within the capacity fails with a length mismatch. *)
Theorem copyin_length_mismatch
    (w : World) (cap : Z) (slice : DiskBuffer.t) (src : bytes) :
  region_open w cap ->
  0 <= DiskBuffer.offset slice ->
  0 <= DiskBuffer.size slice ->
  DiskBuffer.offset slice + DiskBuffer.size slice <= cap ->
  len src <> DiskBuffer.size slice ->
  DiskAllocator.copyin slice src w = (w, Raise LengthMismatch).
Proof.
  destruct slice as [dev sz off]. cbn [DiskBuffer.offset DiskBuffer.size].
  destruct w as [[dn s c sh f m] [fl fs lk]].
  intros Ho Hoff Hsz Hin Hne.
  destruct Ho as [n k Hs Hm Hf Hk Hcap Hn | h b Hs Hm Hf Hh Hb Hcap];
    unfold OS.file_bytes in *;
    cbn [size mem fd shm self os OS.file] in *; subst.
  - py_unfold. rewrite len_firstn by lia.
    rewrite slice_indices_inside by lia. py_unfold.
    destruct (len src =? sz) eqn:E; [apply Z.eqb_eq in E; lia | reflexivity].
  - destruct h as [nm hb]. cbn [shm_buf] in Hb. subst hb.
    py_unfold. rewrite slice_indices_inside by lia. py_unfold.
    destruct (len src =? sz) eqn:E; [apply Z.eqb_eq in E; lia | reflexivity].
Qed.

Lemma copyin_length_mismatch_witness :
  region_open opened4 4 /\
  0 <= DiskBuffer.offset buf4 /\
  0 <= DiskBuffer.size buf4 /\
  DiskBuffer.offset buf4 + DiskBuffer.size buf4 <= 4 /\
  len [x61] <> DiskBuffer.size buf4 /\
  DiskAllocator.copyin buf4 [x61] opened4 = (opened4, Raise LengthMismatch).
Proof.
  assert (Ho : region_open opened4 4).
  { apply (first_open_opens linux 4 (boot tmp_x blank));
      [reflexivity | intros _; reflexivity | reflexivity]. }
  assert (Hne : len [x61] <> DiskBuffer.size buf4)
    by (vm_compute; discriminate).
  split; [exact Ho|]. do 3 (split; [cbn; lia|]). split; [exact Hne|].
  apply (copyin_length_mismatch opened4 4 buf4 [x61] Ho);
    try exact Hne; cbn; lia.
Defined.

(** X20.  On the mapped-view path, copyout into a destination whose
    length is not the size of the slice fails with a length mismatch. *)
Theorem copyout_length_mismatch
    (pf : Platform) (w : World) (cap : Z)
    (slice : DiskBuffer.t) (dest : bytes) :
  OSX pf = false ->
  region_open w cap ->
  0 <= DiskBuffer.offset slice ->
  0 <= DiskBuffer.size slice ->
  DiskBuffer.offset slice + DiskBuffer.size slice <= cap ->
  len dest <> DiskBuffer.size slice ->
  DiskAllocator.copyout pf dest slice w = (w, Raise LengthMismatch).
Proof.
  destruct slice as [dev sz off]. cbn [DiskBuffer.offset DiskBuffer.size].
  destruct w as [[dn s c sh f m] [fl fs lk]].
  intros Hx Ho Hoff Hsz Hin Hne.
  destruct Ho as [n k Hs Hm Hf Hk Hcap Hn | h b Hs Hm Hf Hh Hb Hcap];
    unfold OS.file_bytes in *;
    cbn [size mem fd shm self os OS.file] in *; subst.
  - py_unfold. rewrite Hx. py_unfold. rewrite len_firstn by lia.
    rewrite slice_indices_inside by lia. py_unfold.
    destruct (len dest =? sz) eqn:E; [apply Z.eqb_eq in E; lia | reflexivity].
  - destruct h as [nm hb]. cbn [shm_buf] in Hb. subst hb.
    py_unfold. rewrite Hx. py_unfold.
    rewrite slice_indices_inside by lia. py_unfold.
    destruct (len dest =? sz) eqn:E; [apply Z.eqb_eq in E; lia | reflexivity].
Qed.

Lemma copyout_length_mismatch_witness :
  OSX linux = false /\
  region_open opened4 4 /\
  0 <= DiskBuffer.offset buf4 /\
  0 <= DiskBuffer.size buf4 /\
  DiskBuffer.offset buf4 + DiskBuffer.size buf4 <= 4 /\
  len (zeros 3) <> DiskBuffer.size buf4 /\
  DiskAllocator.copyout linux (zeros 3) buf4 opened4
    = (opened4, Raise LengthMismatch).
Proof.
  assert (Ho : region_open opened4 4).
  { apply (first_open_opens linux 4 (boot tmp_x blank));
      [reflexivity | intros _; reflexivity | reflexivity]. }
  assert (Hne : len (zeros 3) <> DiskBuffer.size buf4)
    by (vm_compute; discriminate).
  split; [reflexivity|].
  split; [exact Ho|]. do 3 (split; [cbn; lia|]). split; [exact Hne|].
  apply (copyout_length_mismatch linux opened4 4 buf4 (zeros 3)
           eq_refl Ho); try exact Hne; cbn; lia.
Defined.



(** ** The printed form of a buffer *)

Lemma uint_has_no (c : ascii) (d : Decimal.uint) :
  has_char c "0123456789" = false ->
  has_char c (NilEmpty.string_of_uint d) = false.
Proof.
  intros H. cbn [has_char] in H.
  repeat (apply orb_false_elim in H; destruct H as (? & H)).
  induction d; cbn [NilEmpty.string_of_uint has_char];
    rewrite ?IHd; auto using orb_false_intro.
Qed.

Lemma str_int_has_no (c : ascii) (z : Z) :
  has_char c "-0123456789" = false ->
  has_char c (str_int z) = false.
Proof.
  intros H. cbn [has_char] in H.
  apply orb_false_elim in H. destruct H as (Hm & H).
  assert (Hu : forall d, has_char c (NilZero.string_of_uint d) = false).
  { intros d. pose proof (uint_has_no c d H) as Hd.
    destruct d; try exact Hd. cbn [NilZero.string_of_uint has_char].
    cbn [has_char] in H. apply orb_false_elim in H. destruct H as (-> & _).
    reflexivity. }
  unfold str_int. destruct (Z.to_int z) as [d|d];
    cbn [NilZero.string_of_int has_char]; rewrite ?Hm, Hu; reflexivity.
Qed.

Lemma split_at_char (c : ascii) : forall s1 s2 r1 r2,
  has_char c s1 = false -> has_char c s2 = false ->
  String.append s1 (String c r1) = String.append s2 (String c r2) ->
  s1 = s2 /\ r1 = r2.
Proof.
  induction s1 as [|a s1 IH]; intros [|b s2] r1 r2 H1 H2 H;
    cbn [String.append has_char] in *.
  - injection H as ->. split; reflexivity.
  - injection H as <- _. rewrite Ascii.eqb_refl in H2. discriminate.
  - injection H as -> _. rewrite Ascii.eqb_refl in H1. discriminate.
  - injection H as -> H.
    apply orb_false_elim in H1. apply orb_false_elim in H2.
    destruct (IH s2 r1 r2 (proj2 H1) (proj2 H2) H) as (-> & ->).
    split; reflexivity.
Qed.

Lemma str_int_parses (z : Z) :
  option_map Z.of_int (NilZero.int_of_string (str_int z)) = Some z.
Proof.
  unfold str_int. rewrite NilZero.isi.
  - cbn [option_map]. rewrite DecimalZ.of_to. reflexivity.
  - destruct z; cbn; try discriminate.
    intros H. injection H as H. revert H. apply DecimalPos.Unsigned.to_uint_nonnil. 
  - destruct z; cbn; try discriminate.
    intros H. injection H as H. revert H. apply DecimalPos.Unsigned.to_uint_nonnil.
Qed.

Lemma str_int_inj (x y : Z) : str_int x = str_int y -> x = y.
Proof.
  intros H. pose proof (str_int_parses x) as Hx.
  rewrite H, str_int_parses in Hx. congruence.
Qed.

(** X23.  The printed form of a buffer determines its size and its
    offset: two buffers that print the same have the same size and the same
    offset. *)
Theorem repr_determines_size_and_offset (b1 b2 : DiskBuffer.t) :
  DiskBuffer.__repr__ b1 = DiskBuffer.__repr__ b2 ->
  DiskBuffer.size b1 = DiskBuffer.size b2 /\
  DiskBuffer.offset b1 = DiskBuffer.offset b2.
Proof.
  unfold DiskBuffer.__repr__. intros H.
  cbn [String.append] in H.
  repeat (injection H as H).
  apply split_at_char in H;
    try (apply str_int_has_no; reflexivity).
  destruct H as (Hs & H).
  cbn [String.append] in H. repeat (injection H as H).
  apply (split_at_char ">"%char _ _ EmptyString EmptyString) in H;
    try (apply str_int_has_no; reflexivity).
  destruct H as (Ho & _).
  split; apply str_int_inj; assumption.
Qed.

Lemma repr_determines_size_and_offset_witness :
  let b1 := DiskBuffer.__init__ tmp_x 4 0 in
  let b2 := DiskBuffer.__init__ shm_seg 4 0 in
  DiskBuffer.__repr__ b1 = DiskBuffer.__repr__ b2 /\
  DiskBuffer.size b1 = DiskBuffer.size b2 /\
  DiskBuffer.offset b1 = DiskBuffer.offset b2.
Proof.
  intros b1 b2. split; [reflexivity|].
  apply (repr_determines_size_and_offset b1 b2). reflexivity.
Defined.
